(** * werpy (weighted): word error rate and edit breakdown

    A shallow embedding of [werpy/metrics.py] ([calculations], [metrics])
    and [werpy/wers.py] ([wers]), and the properties of the alignment
    engine, the batch layer and the WER projection.

    Modelling conventions.
    - A Python [str] is a Rocq [string]; every character is read as a code
      point below 256.
    - The numpy matrix [ldm] is a list of rows of [Z]; reading or writing a
      cell outside the matrix raises [IndexError], as numpy does.  Every
      index [i - 1] / [j - 1] of the source is guarded by [i > 0] / [j > 0]
      or by a range starting at 1, so indices are natural numbers.
    - Cells are [int64] in numpy; they are bounded by [3 * (i + j)] (lemma
      [cells_bounded]), far below 2^63 for any matrix that fits in memory,
      so they are plain [Z] here.
    - [wer = ld / m] divides a numpy integer scalar by a Python int: numpy's
      true division, which yields a float and never raises (a zero divisor
      gives [nan] or an infinity).  Finite quotients are kept as exact
      rationals in lowest terms.
    - [np.vectorize(calculations)] is called without [otypes]: numpy
      refuses arguments of size 0, calls the function once on the first
      entries to find the output type, broadcasts the two shapes and calls
      the function on every pair.  The first call reads its entries back
      from numpy arrays ([asarray(arg).flat[0]]), which drops the NUL
      characters at the end of a string; the calls on the pairs get the
      strings as they were passed.
    - The repository fixes no numpy release, and the result on two scalars
      depends on it: before 2.3.0 it is the array the one call returned,
      from 2.3.0 on it is a 0-d array that holds that array.  [metrics] and
      [wers] take the release as a parameter.
    - The [while] loop of the backtrace runs on fuel: [OutOfFuel] is the
      outcome of a run that was cut; a run that is cut for every amount of
      fuel is a run that never returns. *)

From Stdlib Require Import ZArith QArith Qreduction Lia Ascii String.
From stdpp Require Import base option list strings sorting.

Open Scope Z_scope.
Open Scope nat_scope.

(** ** Outcomes of a Python call *)

Inductive exn : Set :=
  | ValueError
  | AttributeError
  | IndexError.

Inductive outcome (A : Type) : Type :=
  | Ret (a : A)
  | Raise (e : exn)
  | OutOfFuel.

Arguments Ret {A} a.
Arguments Raise {A} e.
Arguments OutOfFuel {A}.

#[global] Instance outcome_bind : MBind outcome :=
  λ A B f x,
    match x with
    | Ret a => f a
    | Raise e => Raise e
    | OutOfFuel => OutOfFuel
    end.

#[global] Instance outcome_ret : MRet outcome := λ A a, Ret a.

(** ** Python builtins used by the source *)

Module Py.

(** [str.isspace] on the code points below 256. *)
Definition isspace (c : ascii) : bool :=
  let k := nat_of_ascii c in
  ((9 <=? k) && (k <=? 13)) || ((28 <=? k) && (k <=? 32))
  || (k =? 133) || (k =? 160).

(** [str.split()] without argument: maximal runs of non-space characters;
    [cur] is the run being read. *)
Fixpoint split_go (s cur : string) : list string :=
  match s with
  | EmptyString => if decide (cur = EmptyString) then [] else [cur]
  | String c s' =>
      if isspace c
      then (if decide (cur = EmptyString) then split_go s' EmptyString
            else cur :: split_go s' EmptyString)
      else split_go s' (cur +:+ String c EmptyString)
  end.

Definition split (s : string) : list string := split_go s EmptyString.

(** [range(lo, hi)]. *)
Definition range (lo hi : nat) : list nat := seq lo (hi - lo).

(** [for k in ks: body], the body receiving the value bound to the loop
    variable. *)
Fixpoint for_each {S : Type} (ks : list nat) (body : nat → S → outcome S)
    (s : S) : outcome S :=
  match ks with
  | [] => Ret s
  | k :: ks' => s' ← body k s; for_each ks' body s'
  end.

(** [while cond: body]. *)
Fixpoint while {S : Type} (fuel : nat) (cond : S → bool)
    (body : S → outcome S) (s : S) : outcome S :=
  if cond s then
    match fuel with
    | 0 => OutOfFuel
    | S fuel' => s' ← body s; while fuel' cond body s'
    end
  else Ret s.

(** [l[k]] on a list, for [k >= 0]. *)
Definition index {A : Type} (l : list A) (k : nat) : outcome A :=
  match l !! k with
  | Some x => Ret x
  | None => Raise IndexError
  end.

End Py.

(** ** The part of numpy used by the source *)

Module Np.

Abbreviation matrix := (list (list Z)).

(** [np.zeros((r, c), dtype=int)]. *)
Definition zeros (r c : nat) : matrix := replicate r (replicate c 0%Z).

Definition lookup2 (D : matrix) (i j : nat) : option Z :=
  D !! i ≫= (λ row, row !! j).

(** The content of a cell, [0] outside the matrix. *)
Definition cell (D : matrix) (i j : nat) : Z := default 0%Z (lookup2 D i j).

(** [D[i, j]]. *)
Definition getitem (D : matrix) (i j : nat) : outcome Z :=
  match lookup2 D i j with
  | Some v => Ret v
  | None => Raise IndexError
  end.

(** [D[i, j] = v]. *)
Definition setitem (D : matrix) (i j : nat) (v : Z) : outcome matrix :=
  match D !! i with
  | Some row =>
      if decide (j < length row) then Ret (<[i := <[j := v]> row]> D)
      else Raise IndexError
  | None => Raise IndexError
  end.

(** A numpy float.  A finite value is an exact rational in lowest terms. *)
Inductive float64 : Set :=
  | Finite (q : Q)
  | PosInf
  | NegInf
  | NaN.

(** [a / b] for a numpy integer scalar [a]: true division, no exception. *)
Definition true_divide (a b : Z) : float64 :=
  if decide (b = 0%Z) then
    if decide (a = 0%Z) then NaN
    else if decide (0 < a)%Z then PosInf else NegInf
  else Finite (Qred (Qdiv (inject_Z a) (inject_Z b))).

(** The numpy releases apart which [np.vectorize] differs on scalar
    arguments. *)
Inductive release : Set :=
  | Before_2_3
  | From_2_3.

(** A string read back from a numpy array of strings: the NUL characters at
    its end are gone. *)
Fixpoint rstrip_nul (s : string) : string :=
  match s with
  | EmptyString => EmptyString
  | String c s' =>
      match rstrip_nul s' with
      | EmptyString =>
          if Ascii.eqb c Ascii.zero then EmptyString else String c EmptyString
      | t => String c t
      end
  end.

(** The shape of an argument of a vectorized function, one level deep:
    [None] for a scalar (0-d), [Some k] for a sequence of [k] elements. *)
Definition shape : Type := option nat.

(** numpy's broadcasting rule on such shapes. *)
Definition broadcast (s1 s2 : shape) : option shape :=
  match s1, s2 with
  | None, s | s, None => Some s
  | Some k1, Some k2 =>
      if decide (k1 = k2) then Some (Some k1)
      else if decide (k1 = 1) then Some (Some k2)
      else if decide (k2 = 1) then Some (Some k1)
      else None
  end.

End Np.

(** ** werpy/metrics.py *)

Module Metrics.

Import Py Np.

(** A value passed for a text: a string, or a number (which has no
    [split] attribute). *)
Inductive pyobj : Type :=
  | Str (s : string)
  | Num (z : Z).

(** [x.split()]. *)
Definition str_split (x : pyobj) : outcome (list string) :=
  match x with
  | Str s => Ret (split s)
  | Num _ => Raise AttributeError
  end.

(** The local variables [i], [j] and [ldm] of [calculations] while the
    matrix is built.  The loop variables outlive their loops. *)
Record locals : Type := Locals {
  v_i : nat;
  v_j : nat;
  v_ldm : matrix
}.

(** The array returned by [calculations], field by field. *)
Record breakdown : Type := Breakdown {
  wer : float64;
  ld : Z;
  m : nat;
  insertions : nat;
  deletions : nat;
  substitutions : nat;
  inserted_words : list string;
  deleted_words : list string;
  substituted_words : list (string * string)
}.

(** The local variables of the backtrace loop. *)
Record trace : Type := Trace {
  bt_i : nat;
  bt_j : nat;
  bt_insertions : nat;
  bt_deletions : nat;
  bt_substitutions : nat;
  bt_inserted_words : list string;
  bt_deleted_words : list string;
  bt_substituted_words : list (string * string)
}.

(** [for i in range(m + 1): ldm[i, 0] = i] *)
Definition init_column (m : nat) (st : locals) : outcome locals :=
  for_each (range 0 (m + 1))
    (λ i st, D ← setitem (v_ldm st) i 0 (Z.of_nat i);
             Ret (Locals i (v_j st) D)) st.

(** [for j in range(n + 1): ldm[0, j] = j] *)
Definition init_row (n : nat) (st : locals) : outcome locals :=
  for_each (range 0 (n + 1))
    (λ j st, D ← setitem (v_ldm st) 0 j (Z.of_nat j);
             Ret (Locals (v_i st) j D)) st.

(** The body of the nested loops, lines 58-66. *)
Definition fill_cell (reference_word hypothesis_word : list string)
    (i j : nat) (D : matrix) : outcome matrix :=
  a ← index reference_word (i - 1);
  b ← index hypothesis_word (j - 1);
  if String.eqb a b then
    d ← getitem D (i - 1) (j - 1);
    setitem D i j d
  else
    d1 ← getitem D (i - 1) (j - 1);
    let substitution := (d1 + 4)%Z in
    d2 ← getitem D i (j - 1);
    let insertion := (d2 + 3)%Z in
    d3 ← getitem D (i - 1) j;
    let deletion := (d3 + 3)%Z in
    setitem D i j (Z.min substitution (Z.min insertion deletion)).

(** [for j in range(1, n + 1): ...] in the row [v_i st]. *)
Definition fill_row (reference_word hypothesis_word : list string)
    (n : nat) (st : locals) : outcome locals :=
  for_each (range 1 (n + 1))
    (λ j st, D ← fill_cell reference_word hypothesis_word (v_i st) j (v_ldm st);
             Ret (Locals (v_i st) j D)) st.

(** [for i in range(1, m + 1): for j in range(1, n + 1): ...] *)
Definition fill_rows (reference_word hypothesis_word : list string)
    (m n : nat) (st : locals) : outcome locals :=
  for_each (range 1 (m + 1))
    (λ i st, fill_row reference_word hypothesis_word n
               (Locals i (v_j st) (v_ldm st))) st.

(** Lines 48-66. *)
Definition build_matrix (reference_word hypothesis_word : list string)
    : outcome locals :=
  let m := length reference_word in
  let n := length hypothesis_word in
  let st := Locals 0 0 (zeros (m + 1) (n + 1)) in
  st ← init_column m st;
  st ← init_row n st;
  fill_rows reference_word hypothesis_word m n st.

(** [while i > 0 or j > 0] *)
Definition backtrace_cond (t : trace) : bool :=
  (0 <? bt_i t) || (0 <? bt_j t).

(** The body of the backtrace loop, lines 75-91.  [and] evaluates its
    right operand only when the left one holds. *)
Definition backtrace_step (reference_word hypothesis_word : list string)
    (D : matrix) (t : trace) : outcome trace :=
  let i := bt_i t in
  let j := bt_j t in
  is_match ←
    (if (0 <? i) && (0 <? j) then
       a ← index reference_word (i - 1);
       b ← index hypothesis_word (j - 1);
       Ret (String.eqb a b)
     else Ret false);
  if is_match : bool then
    Ret (Trace (i - 1) (j - 1) (bt_insertions t) (bt_deletions t)
           (bt_substitutions t) (bt_inserted_words t) (bt_deleted_words t)
           (bt_substituted_words t))
  else
    is_sub ←
      (if (0 <? i) && (0 <? j) then
         x ← getitem D i j;
         y ← getitem D (i - 1) (j - 1);
         Ret (x =? y + 1)%Z
       else Ret false);
    if is_sub : bool then
      a ← index reference_word (i - 1);
      b ← index hypothesis_word (j - 1);
      Ret (Trace (i - 1) (j - 1) (bt_insertions t) (bt_deletions t)
             (bt_substitutions t + 1) (bt_inserted_words t)
             (bt_deleted_words t) (bt_substituted_words t ++ [(a, b)]))
    else
      is_ins ←
        (if 0 <? j then
           x ← getitem D i j;
           y ← getitem D i (j - 1);
           Ret (x =? y + 1)%Z
         else Ret false);
      if is_ins : bool then
        b ← index hypothesis_word (j - 1);
        Ret (Trace i (j - 1) (bt_insertions t + 1) (bt_deletions t)
               (bt_substitutions t) (bt_inserted_words t ++ [b])
               (bt_deleted_words t) (bt_substituted_words t))
      else
        is_del ←
          (if 0 <? i then
             x ← getitem D i j;
             y ← getitem D (i - 1) j;
             Ret (x =? y + 1)%Z
           else Ret false);
        if is_del : bool then
          a ← index reference_word (i - 1);
          Ret (Trace (i - 1) j (bt_insertions t) (bt_deletions t + 1)
                 (bt_substitutions t) (bt_inserted_words t)
                 (bt_deleted_words t ++ [a]) (bt_substituted_words t))
        else Ret t.

(** Lines 71-91. *)
Definition backtrace (fuel : nat) (reference_word hypothesis_word : list string)
    (D : matrix) : outcome trace :=
  while fuel backtrace_cond
    (backtrace_step reference_word hypothesis_word D)
    (Trace (length reference_word) (length hypothesis_word) 0 0 0 [] [] []).

(** [calculations(reference, hypothesis)] on the token lists. *)
Definition align (fuel : nat) (reference_word hypothesis_word : list string)
    : outcome breakdown :=
  let m := length reference_word in
  st ← build_matrix reference_word hypothesis_word;
  ld ← getitem (v_ldm st) (v_i st) (v_j st);
  let wer := true_divide ld (Z.of_nat m) in
  t ← backtrace fuel reference_word hypothesis_word (v_ldm st);
  Ret (Breakdown wer ld m (bt_insertions t) (bt_deletions t)
         (bt_substitutions t) (reverse (bt_inserted_words t))
         (reverse (bt_deleted_words t)) (reverse (bt_substituted_words t))).

Definition calculations (fuel : nat) (reference hypothesis : pyobj)
    : outcome breakdown :=
  reference_word ← str_split reference;
  hypothesis_word ← str_split hypothesis;
  align fuel reference_word hypothesis_word.

(** An argument of [metrics], one level of batching deep: a text, a
    number, a list of texts or a list of numbers. *)
Inductive pyarg : Type :=
  | Text (s : string)
  | Number (z : Z)
  | Texts (l : list string)
  | Numbers (l : list Z).

Definition arg_shape (a : pyarg) : shape :=
  match a with
  | Text _ | Number _ => None
  | Texts l => Some (length l)
  | Numbers l => Some (length l)
  end.

(** [asarray(a).size] *)
Definition arg_size (a : pyarg) : nat :=
  match arg_shape a with
  | None => 1
  | Some k => k
  end.

(** The entries of [a] in order. *)
Definition entries (a : pyarg) : list pyobj :=
  match a with
  | Text s => [Str s]
  | Number z => [Num z]
  | Texts l => Str <$> l
  | Numbers l => Num <$> l
  end.

(** The entry of [a] paired with position [k] of the broadcast result: a
    scalar or a one-element sequence is repeated. *)
Definition entry (a : pyarg) (k : nat) : outcome pyobj :=
  match arg_shape a with
  | None | Some 1 => index (entries a) 0
  | Some _ => index (entries a) k
  end.

(** [asarray(a).flat[0]]: the first entry, read back from the array numpy
    makes of [a]. *)
Definition first_entry (a : pyarg) : outcome pyobj :=
  x ← index (entries a) 0;
  Ret (match x with
       | Str s => Str (rstrip_nul s)
       | Num z => Num z
       end).

(** The result of the vectorized function.  On scalar arguments: the array
    of the one call ([Single]), or a 0-d array that holds it ([Boxed]).
    Otherwise an array of such arrays ([Many]). *)
Inductive batch : Type :=
  | Single (r : breakdown)
  | Boxed (r : breakdown)
  | Many (rs : list breakdown).

(** Calls in index order; the first call that does not return decides. *)
Fixpoint map_calls {A B : Type} (f : A → outcome B) (l : list A)
    : outcome (list B) :=
  match l with
  | [] => Ret []
  | x :: l' => y ← f x; ys ← map_calls f l'; Ret (y :: ys)
  end.

(** [np.vectorize(f)(a, b)] without [otypes], under the numpy release [v]:
    size-0 arguments are refused, [f] is called once on the first entries
    as numpy reads them back, to find the output type, then on every pair
    of the broadcast arguments. *)
Definition vectorize (v : release) (f : pyobj → pyobj → outcome breakdown)
    (a b : pyarg) : outcome batch :=
  if decide (arg_size a = 0 ∨ arg_size b = 0) then Raise ValueError
  else
    x0 ← first_entry a;
    y0 ← first_entry b;
    _ ← f x0 y0;
    match broadcast (arg_shape a) (arg_shape b) with
    | None => Raise ValueError
    | Some None =>
        x ← entry a 0;
        y ← entry b 0;
        r ← f x y;
        Ret (match v with
             | Before_2_3 => Single r
             | From_2_3 => Boxed r
             end)
    | Some (Some k) =>
        rs ← map_calls (λ idx, x ← entry a idx; y ← entry b idx; f x y)
               (seq 0 k);
        Ret (Many rs)
    end.

(** [metrics(reference, hypothesis)] *)
Definition metrics (v : release) (fuel : nat) (reference hypothesis : pyarg)
    : outcome batch :=
  let vectorize_calculations := vectorize v (calculations fuel) in
  vectorize_calculations reference hypothesis.

End Metrics.

(** ** werpy/wers.py *)

Module Wers.

Import Py Np Metrics.

(** What [wers] returns. *)
Inductive pyval : Type :=
  | PyNone
  | PyFloat (x : float64)
  | PyList (xs : list float64).

(** A run of [wers]: the lines printed and the outcome. *)
Record run : Type := Run {
  stdout : list string;
  result : outcome pyval
}.

Definition value_error_message : string :=
  "ValueError: The Reference and Hypothesis input parameters must have the same number of elements.".

Definition attribute_error_message : string :=
  "AttributeError: All text should be in a string format. Please check your input does not include any Numeric data types.".

(** [word_error_rate_breakdown[0]]: a float for the array of one call, an
    array for an array of arrays; a 0-d array has no axis to index and
    raises [IndexError]. *)
Inductive item : Type :=
  | ItemFloat (x : float64)
  | ItemArray (r : breakdown).

Definition item0 (b : batch) : outcome item :=
  match b with
  | Single r => Ret (ItemFloat (wer r))
  | Boxed _ => Raise IndexError
  | Many rs => r ← index rs 0; Ret (ItemArray r)
  end.

(** [np.transpose(b.tolist())[0].tolist()]: the first column of the table
    whose rows are the arrays of [b].  [wers] evaluates it on an array of
    arrays only. *)
Definition first_column (b : batch) : list float64 :=
  match b with
  | Single r | Boxed r => [wer r]
  | Many rs => wer <$> rs
  end.

(** The [else] clause of [wers], lines 55-60. *)
Definition project (word_error_rate_breakdown : batch) : outcome pyval :=
  first ← item0 word_error_rate_breakdown;
  match first with
  | ItemArray _ => Ret (PyList (first_column word_error_rate_breakdown))
  | ItemFloat x => Ret (PyFloat x)
  end.

(** [wers(reference, hypothesis)] under the numpy release [v].  A function
    that ends without [return] returns [None]; the [else] clause is outside
    the two [except] clauses, so what it raises leaves [wers]. *)
Definition wers (v : release) (fuel : nat) (reference hypothesis : pyarg) : run :=
  match metrics v fuel reference hypothesis with
  | Raise ValueError => Run [value_error_message] (Ret PyNone)
  | Raise AttributeError => Run [attribute_error_message] (Ret PyNone)
  | Raise e => Run [] (Raise e)
  | OutOfFuel => Run [] OutOfFuel
  | Ret word_error_rate_breakdown => Run [] (project word_error_rate_breakdown)
  end.

End Wers.

(** ** Specification vocabulary *)

Module Spec.

Import Py Np Metrics.

(** [D] has [r] rows of [c] cells. *)
Definition shaped (r c : nat) (D : matrix) : Prop :=
  length D = r ∧ Forall (λ row, length row = c) D.

(** [reference[i-1] == hypothesis[j-1]] *)
Definition same_word (reference_word hypothesis_word : list string)
    (i j : nat) : bool :=
  match reference_word !! (i - 1), hypothesis_word !! (j - 1) with
  | Some a, Some b => String.eqb a b
  | _, _ => false
  end.

(** The value the recurrence gives to the inner cell [(i, j)] of [D]. *)
Definition recurrence (reference_word hypothesis_word : list string)
    (D : matrix) (i j : nat) : Z :=
  if same_word reference_word hypothesis_word i j
  then cell D (i - 1) (j - 1)
  else Z.min (cell D (i - 1) (j - 1) + 4)
         (Z.min (cell D i (j - 1) + 3) (cell D (i - 1) j + 3)).

Definition border (m n : nat) (D : matrix) : Prop :=
  (∀ i, i ≤ m → cell D i 0 = Z.of_nat i)
  ∧ (∀ j, j ≤ n → cell D 0 j = Z.of_nat j).

(** The inner cells of the rows [1 .. i-1], and of the row [i] up to the
    column [j - 1], obey the recurrence. *)
Definition filled_upto (reference_word hypothesis_word : list string)
    (n : nat) (D : matrix) (i j : nat) : Prop :=
  ∀ i' j', 1 ≤ i' → 1 ≤ j' → j' ≤ n →
    (i' < i ∨ (i' = i ∧ j' < j)) →
    cell D i' j' = recurrence reference_word hypothesis_word D i' j'.

(** [D] is the edit-distance matrix of the two token lists. *)
Definition edit_matrix (reference_word hypothesis_word : list string)
    (D : matrix) : Prop :=
  let m := length reference_word in
  let n := length hypothesis_word in
  shaped (m + 1) (n + 1) D
  ∧ border m n D
  ∧ ∀ i j, 1 ≤ i ≤ m → 1 ≤ j ≤ n →
      cell D i j = recurrence reference_word hypothesis_word D i j.

(** The words [ws] stand in [l] at the positions [ps]. *)
Definition at_positions {A : Type} (l ws : list A) (ps : list nat) : Prop :=
  Forall2 (λ w p, l !! p = Some w) ws ps.

(** The pairs [ws] stand in [l1] and [l2] at the positions [ps]. *)
Definition pairs_at_positions {A : Type} (l1 l2 : list A)
    (ws : list (A * A)) (ps : list (nat * nat)) : Prop :=
  Forall2 (λ w p, l1 !! p.1 = Some w.1 ∧ l2 !! p.2 = Some w.2) ws ps.

(** Both components grow. *)
Definition both_lt (p q : nat * nat) : Prop := p.1 < q.1 ∧ p.2 < q.2.

(** The edit lists of [r] read left to right: each is taken from its
    sequence at strictly increasing positions. *)
Definition left_to_right (reference_word hypothesis_word : list string)
    (r : breakdown) : Prop :=
  (∃ js, StronglySorted lt js
         ∧ at_positions hypothesis_word (inserted_words r) js)
  ∧ (∃ ks, StronglySorted lt ks
           ∧ at_positions reference_word (deleted_words r) ks)
  ∧ (∃ ps, StronglySorted both_lt ps
           ∧ pairs_at_positions reference_word hypothesis_word
               (substituted_words r) ps).

(** Loop invariant: the counters are the lengths of the lists. *)
Definition counts_agree (t : trace) : Prop :=
  bt_insertions t = length (bt_inserted_words t)
  ∧ bt_deletions t = length (bt_deleted_words t)
  ∧ bt_substitutions t = length (bt_substituted_words t).

(** Loop invariant: read backwards, the lists recorded so far stand at
    increasing positions, none before the current [(i, j)]. *)
Definition ordered_so_far (reference_word hypothesis_word : list string)
    (t : trace) : Prop :=
  (∃ js, StronglySorted lt js ∧ Forall (λ p, bt_j t ≤ p) js
         ∧ at_positions hypothesis_word (reverse (bt_inserted_words t)) js)
  ∧ (∃ ks, StronglySorted lt ks ∧ Forall (λ p, bt_i t ≤ p) ks
           ∧ at_positions reference_word (reverse (bt_deleted_words t)) ks)
  ∧ (∃ ps, StronglySorted both_lt ps
           ∧ Forall (λ p, bt_i t ≤ p.1 ∧ bt_j t ≤ p.2) ps
           ∧ pairs_at_positions reference_word hypothesis_word
               (reverse (bt_substituted_words t)) ps).

(** [a] is a number or a list of numbers. *)
Definition numeric (a : pyarg) : Prop :=
  match a with
  | Number _ | Numbers _ => True
  | Text _ | Texts _ => False
  end.

End Spec.

(** ** Loops *)

Section Loops.

Import Py.

Context {S : Type}.

Lemma for_each_range (Inv : nat → S → Prop) (body : nat → S → outcome S)
    (lo hi : nat) (s : S) :
  lo ≤ hi →
  Inv lo s →
  (∀ k s, lo ≤ k < hi → Inv k s → ∃ s', body k s = Ret s' ∧ Inv (k + 1) s') →
  ∃ s', for_each (range lo hi) body s = Ret s' ∧ Inv hi s'.
Proof.
  unfold range. intros Hle.
  remember (hi - lo) as d eqn:Hd.
  revert lo s Hle Hd.
  induction d as [|d IH]; intros lo s Hle Hd Hinv Hbody.
  - assert (hi = lo) as -> by lia. by exists s.
  - destruct (Hbody lo s) as (s1 & Hs1 & Hinv1); [lia | done |].
    cbn [seq for_each]. rewrite Hs1. cbn.
    replace (lo + 1) with (Datatypes.S lo) in Hinv1 by lia.
    apply IH; [lia | lia | done |].
    intros k s0 Hk. apply Hbody. lia.
Qed.

Lemma while_done (fuel : nat) (cond : S → bool) (body : S → outcome S) (s : S) :
  cond s = false → while fuel cond body s = Ret s.
Proof. intros H. destruct fuel; cbn; by rewrite H. Qed.

Lemma while_unfold (fuel : nat) (cond : S → bool) (body : S → outcome S)
    (s s' : S) :
  cond s = true → body s = Ret s' →
  while (Datatypes.S fuel) cond body s = while fuel cond body s'.
Proof. intros Hc Hb. cbn. by rewrite Hc, Hb. Qed.

(** A state that the body leaves unchanged, with the condition true, is
    never left. *)
Lemma while_stuck (cond : S → bool) (body : S → outcome S) (s : S) :
  cond s = true → body s = Ret s →
  ∀ fuel, while fuel cond body s = OutOfFuel.
Proof.
  intros Hc Hb fuel. induction fuel as [|fuel IH]; cbn; rewrite Hc; [done|].
  rewrite Hb. exact IH.
Qed.

(** An invariant of the body holds when the loop returns. *)
Lemma while_invariant (Inv : S → Prop) (cond : S → bool)
    (body : S → outcome S) :
  (∀ s s', Inv s → cond s = true → body s = Ret s' → Inv s') →
  ∀ fuel s s', Inv s → while fuel cond body s = Ret s' →
    Inv s' ∧ cond s' = false.
Proof.
  intros Hstep fuel. induction fuel as [|fuel IH]; intros s s' Hinv; cbn.
  - destruct (cond s) eqn:Hc; [done|]. intros [= <-]. done.
  - destruct (cond s) eqn:Hc; [|intros [= <-]; done].
    destruct (body s) as [s1| |] eqn:Hb; cbn; try done.
    apply IH. eauto.
Qed.

(** A run that returns does so with any larger amount of fuel. *)
Lemma while_fuel_mono (cond : S → bool) (body : S → outcome S)
    (fuel fuel' : nat) (s s' : S) :
  while fuel cond body s = Ret s' → fuel ≤ fuel' →
  while fuel' cond body s = Ret s'.
Proof.
  revert fuel' s. induction fuel as [|fuel IH]; intros fuel' s; cbn.
  - destruct (cond s) eqn:Hc; [done|]. intros [= <-] _. by apply while_done.
  - destruct (cond s) eqn:Hc.
    + destruct fuel' as [|fuel']; [lia|]. cbn. rewrite Hc.
      destruct (body s) as [s1| |]; cbn; [|done..].
      intros H Hle. apply IH; [done | lia].
    + intros [= <-] _. by apply while_done.
Qed.

(** A set of states that the body never leaves and on which the condition
    holds is never left by the loop. *)
Lemma while_trapped (Inv : S → Prop) (cond : S → bool) (body : S → outcome S) :
  (∀ s, Inv s → cond s = true ∧ ∃ s', body s = Ret s' ∧ Inv s') →
  ∀ fuel s, Inv s → while fuel cond body s = OutOfFuel.
Proof.
  intros Hstep fuel. induction fuel as [|fuel IH]; intros s Hs;
    destruct (Hstep s Hs) as (Hc & s' & Hb & Hs'); cbn; rewrite Hc; [done|].
  rewrite Hb. cbn. by apply IH.
Qed.

End Loops.

(** ** The matrix *)

Section Matrix.

Import Py Np Metrics Spec.

Lemma zeros_shaped (r c : nat) : shaped r c (zeros r c).
Proof.
  split; unfold zeros.
  - apply length_replicate.
  - apply Forall_replicate, length_replicate.
Qed.

Lemma shaped_row (r c : nat) (D : matrix) (i : nat) :
  shaped r c D → i < r → ∃ row, D !! i = Some row ∧ length row = c.
Proof.
  intros [Hlen Hrows] Hi.
  destruct (lookup_lt_is_Some_2 D i) as [row Hrow]; [lia|].
  exists row. split; [done|].
  by apply (proj1 (Forall_lookup _ _) Hrows i).
Qed.

Lemma shaped_lookup2 (r c : nat) (D : matrix) (i j : nat) :
  shaped r c D → i < r → j < c → lookup2 D i j = Some (cell D i j).
Proof.
  intros HD Hi Hj. destruct (shaped_row r c D i HD Hi) as (row & Hrow & Hlen).
  unfold cell, lookup2. rewrite Hrow. cbn.
  destruct (lookup_lt_is_Some_2 row j) as [v ->]; [lia | done].
Qed.

Lemma getitem_cell (r c : nat) (D : matrix) (i j : nat) :
  shaped r c D → i < r → j < c → getitem D i j = Ret (cell D i j).
Proof.
  intros HD Hi Hj. unfold getitem. by rewrite (shaped_lookup2 r c).
Qed.

Lemma setitem_spec (r c : nat) (D : matrix) (i j : nat) (v : Z) :
  shaped r c D → i < r → j < c →
  ∃ D', setitem D i j v = Ret D'
        ∧ shaped r c D'
        ∧ cell D' i j = v
        ∧ ∀ i' j', (i' ≠ i ∨ j' ≠ j) → cell D' i' j' = cell D i' j'.
Proof.
  intros HD Hi Hj.
  destruct (shaped_row r c D i HD Hi) as (row & Hrow & Hlen).
  destruct HD as [HlenD Hrows].
  exists (<[i := <[j := v]> row]> D). unfold setitem. rewrite Hrow.
  rewrite decide_True by lia. split; [done|]. split; [|split].
  - split; [by rewrite length_insert|].
    apply Forall_insert; [done|]. by rewrite length_insert.
  - unfold cell, lookup2. rewrite list_lookup_insert_eq by lia. cbn.
    by rewrite list_lookup_insert_eq by lia.
  - intros i' j' Hne. unfold cell, lookup2.
    destruct (decide (i' = i)) as [->|Hi'].
    + rewrite list_lookup_insert_eq by lia. rewrite Hrow. cbn.
      rewrite list_lookup_insert_ne by (intros ->; destruct Hne; done). done.
    + by rewrite list_lookup_insert_ne.
Qed.

Lemma init_column_spec (m n : nat) (D : matrix) :
  shaped (m + 1) (n + 1) D →
  ∃ D', init_column m (Locals 0 0 D) = Ret (Locals m 0 D')
        ∧ shaped (m + 1) (n + 1) D'
        ∧ ∀ i, i ≤ m → cell D' i 0 = Z.of_nat i.
Proof.
  intros HD. unfold init_column.
  edestruct (for_each_range
    (λ k st, shaped (m + 1) (n + 1) (v_ldm st) ∧ v_j st = 0
             ∧ v_i st = k - 1
             ∧ ∀ i, i < k → cell (v_ldm st) i 0 = Z.of_nat i))
    as (st & -> & Hsh & Hj & Hi & Hcells);
    [ | | | exists (v_ldm st)].
  - lia.
  - cbn. split_and!; [done.. | intros; lia].
  - intros k [i0 j0 D0] Hk (Hsh & Hj & Hi & Hcells). cbn in *.
    destruct (setitem_spec (m + 1) (n + 1) D0 k 0 (Z.of_nat k))
      as (D1 & -> & Hsh1 & Hv & Hother); [done | lia | lia |].
    eexists. split; [done|]. cbn. split_and!; [done | done | lia |].
    intros i Hlt. destruct (decide (i = k)) as [->|Hne]; [done|].
    rewrite Hother by (left; done). apply Hcells. lia.
  - destruct st as [i0 j0 D0]. cbn in *. subst.
    replace (m + 1 - 1) with m by lia. split; [done|]. split; [done|].
    intros i Hle. apply Hcells. lia.
Qed.

Lemma init_row_spec (m n : nat) (D : matrix) :
  shaped (m + 1) (n + 1) D →
  (∀ i, i ≤ m → cell D i 0 = Z.of_nat i) →
  ∃ D', init_row n (Locals m 0 D) = Ret (Locals m n D')
        ∧ shaped (m + 1) (n + 1) D'
        ∧ border m n D'.
Proof.
  intros HD Hcol. unfold init_row.
  edestruct (for_each_range
    (λ k st, shaped (m + 1) (n + 1) (v_ldm st) ∧ v_i st = m
             ∧ v_j st = k - 1
             ∧ (∀ i, i ≤ m → cell (v_ldm st) i 0 = Z.of_nat i)
             ∧ ∀ j, j < k → cell (v_ldm st) 0 j = Z.of_nat j))
    as (st & -> & Hsh & Hi & Hj & Hc & Hr);
    [ | | | exists (v_ldm st)].
  - lia.
  - cbn. split_and!; [done.. | intros; lia].
  - intros k [i0 j0 D0] Hk (Hsh & Hi & Hj & Hc & Hr). cbn in *.
    destruct (setitem_spec (m + 1) (n + 1) D0 0 k (Z.of_nat k))
      as (D1 & -> & Hsh1 & Hv & Hother); [done | lia | lia |].
    eexists. split; [done|]. cbn. split_and!; [done | done | lia | |].
    + intros i Hle. destruct (decide (i = 0 ∧ k = 0)) as [[-> ->]|Hne]; [done|].
      rewrite Hother by lia. by apply Hc.
    + intros j Hlt. destruct (decide (j = k)) as [->|Hne]; [done|].
      rewrite Hother by (right; done). apply Hr. lia.
  - destruct st as [i0 j0 D0]. cbn in *. subst.
    replace (n + 1 - 1) with n by lia. split; [done|]. split; [done|].
    split; [done|]. intros j Hle. apply Hr. lia.
Qed.

Lemma index_lookup {A : Type} (l : list A) (k : nat) (x : A) :
  l !! k = Some x → index l k = Ret x.
Proof. intros H. unfold index. by rewrite H. Qed.

Lemma recurrence_ext (rw hw : list string) (D D' : matrix) (i j : nat) :
  cell D' (i - 1) (j - 1) = cell D (i - 1) (j - 1) →
  cell D' i (j - 1) = cell D i (j - 1) →
  cell D' (i - 1) j = cell D (i - 1) j →
  recurrence rw hw D' i j = recurrence rw hw D i j.
Proof. intros H1 H2 H3. unfold recurrence. by rewrite H1, H2, H3. Qed.

Lemma fill_cell_spec (rw hw : list string) (D : matrix) (i j : nat) :
  shaped (length rw + 1) (length hw + 1) D →
  1 ≤ i ≤ length rw → 1 ≤ j ≤ length hw →
  ∃ D', fill_cell rw hw i j D = Ret D'
        ∧ shaped (length rw + 1) (length hw + 1) D'
        ∧ cell D' i j = recurrence rw hw D i j
        ∧ ∀ i' j', (i' ≠ i ∨ j' ≠ j) → cell D' i' j' = cell D i' j'.
Proof.
  intros HD Hi Hj.
  destruct (lookup_lt_is_Some_2 rw (i - 1)) as [a Ha]; [lia|].
  destruct (lookup_lt_is_Some_2 hw (j - 1)) as [b Hb]; [lia|].
  unfold fill_cell, recurrence, same_word.
  rewrite (index_lookup _ _ _ Ha), (index_lookup _ _ _ Hb), Ha, Hb. cbn.
  destruct (String.eqb a b).
  - rewrite (getitem_cell _ _ _ _ _ HD) by lia. cbn.
    destruct (setitem_spec _ _ D i j (cell D (i - 1) (j - 1)) HD)
      as (D' & -> & ? & ? & ?); [lia | lia |]. by exists D'.
  - pose proof (λ i j, getitem_cell _ _ D i j HD) as Hget.
    repeat (rewrite Hget by lia; cbn).
    match goal with
    | |- context [setitem D i j ?v] =>
        destruct (setitem_spec _ _ D i j v HD) as (D' & -> & ? & ? & ?);
        [lia | lia |]
    end.
    by exists D'.
Qed.

Lemma fill_row_spec (rw hw : list string) (D : matrix) (i : nat) :
  let m := length rw in
  let n := length hw in
  shaped (m + 1) (n + 1) D → border m n D → 1 ≤ i ≤ m →
  filled_upto rw hw n D i 1 →
  ∃ D', fill_row rw hw n (Locals i n D) = Ret (Locals i n D')
        ∧ shaped (m + 1) (n + 1) D' ∧ border m n D'
        ∧ filled_upto rw hw n D' i (n + 1).
Proof.
  intros m n HD HB Hi Hfilled. unfold fill_row.
  edestruct (for_each_range
    (λ k st, shaped (m + 1) (n + 1) (v_ldm st) ∧ border m n (v_ldm st)
             ∧ v_i st = i
             ∧ (k = 1 → v_j st = n) ∧ (1 < k → v_j st = k - 1)
             ∧ filled_upto rw hw n (v_ldm st) i k))
    as (st & -> & Hsh & Hbo & Hvi & Hj1 & Hj2 & Hf);
    [ | | | exists (v_ldm st)].
  - lia.
  - cbn. split_and!; [done.. | lia | done].
  - intros k [i0 j0 D0] Hk (Hsh & Hbo & Hvi & _ & _ & Hf). cbn in *. subst i0.
    destruct (fill_cell_spec rw hw D0 i k Hsh)
      as (D1 & -> & Hsh1 & Hv & Hother); [lia | lia |].
    eexists. split; [done|]. cbn. split_and!; [done | | done | lia | lia |].
    + destruct Hbo as [Hc Hr]. split.
      * intros i' Hle. rewrite Hother by lia. by apply Hc.
      * intros j' Hle. rewrite Hother by lia. by apply Hr.
    + intros i' j' Hi' Hj' Hjn Hpos.
      rewrite (recurrence_ext rw hw D0 D1) by (apply Hother; lia).
      destruct (decide (i' = i ∧ j' = k)) as [[-> ->]|Hne]; [done|].
      rewrite Hother by lia. apply Hf; lia.
  - destruct st as [i0 j0 D0]. cbn in *. subst i0.
    assert (j0 = n) as -> by (destruct (decide (n = 0)); [apply Hj1 | rewrite Hj2]; lia).
    done.
Qed.

Lemma fill_rows_spec (rw hw : list string) (D : matrix) :
  let m := length rw in
  let n := length hw in
  shaped (m + 1) (n + 1) D → border m n D →
  ∃ D', fill_rows rw hw m n (Locals m n D) = Ret (Locals m n D')
        ∧ edit_matrix rw hw D'.
Proof.
  intros m n HD HB. unfold fill_rows.
  edestruct (for_each_range
    (λ k st, shaped (m + 1) (n + 1) (v_ldm st) ∧ border m n (v_ldm st)
             ∧ v_j st = n
             ∧ (k = 1 → v_i st = m) ∧ (1 < k → v_i st = k - 1)
             ∧ filled_upto rw hw n (v_ldm st) k 1))
    as (st & -> & Hsh & Hbo & Hvj & Hi1 & Hi2 & Hf);
    [ | | | exists (v_ldm st)].
  - lia.
  - cbn. split_and!; [done.. | lia | ]. intros i' j' ????. lia.
  - intros k [i0 j0 D0] Hk (Hsh & Hbo & Hvj & _ & _ & Hf). cbn in *.
    subst j0 m n.
    destruct (fill_row_spec rw hw D0 k Hsh Hbo) as (D1 & -> & Hsh1 & Hbo1 & Hf1);
      [lia | done |].
    eexists. split; [done|]. cbn. split_and!; [done | done | done | lia | lia |].
    intros i' j' Hi' Hj' Hjn Hpos. apply Hf1; lia.
  - destruct st as [i0 j0 D0]. cbn in *. subst j0.
    assert (i0 = m) as -> by (destruct (decide (m = 0)); [apply Hi1 | rewrite Hi2]; lia).
    split; [done|]. split_and!; [done | done |].
    intros i j Hi Hj. apply Hf; lia.
Qed.

(** The matrix is built without failure, the loop variables end on
    [(m, n)], and the matrix is the edit-distance matrix. *)
Lemma build_matrix_spec (rw hw : list string) :
  ∃ D, build_matrix rw hw = Ret (Locals (length rw) (length hw) D)
       ∧ edit_matrix rw hw D.
Proof.
  unfold build_matrix.
  destruct (init_column_spec (length rw) (length hw) _ (zeros_shaped _ _))
    as (D1 & -> & Hsh1 & Hc1). cbn.
  destruct (init_row_spec _ _ D1 Hsh1 Hc1) as (D2 & -> & Hsh2 & Hb2). cbn.
  exact (fill_rows_spec rw hw D2 Hsh2 Hb2).
Qed.

End Matrix.

(** ** The backtrace *)

Section Backtrace.

Import Py Np Metrics Spec.

(** The five ways an iteration of the backtrace loop can end. *)
Lemma backtrace_step_cases (rw hw : list string) (D : matrix) (t t' : trace) :
  backtrace_step rw hw D t = Ret t' →
  (0 < bt_i t ∧ 0 < bt_j t
   ∧ t' = Trace (bt_i t - 1) (bt_j t - 1) (bt_insertions t) (bt_deletions t)
            (bt_substitutions t) (bt_inserted_words t) (bt_deleted_words t)
            (bt_substituted_words t))
  ∨ (0 < bt_i t ∧ 0 < bt_j t
     ∧ ∃ a b, rw !! (bt_i t - 1) = Some a ∧ hw !! (bt_j t - 1) = Some b
       ∧ t' = Trace (bt_i t - 1) (bt_j t - 1) (bt_insertions t)
                (bt_deletions t) (bt_substitutions t + 1)
                (bt_inserted_words t) (bt_deleted_words t)
                (bt_substituted_words t ++ [(a, b)]))
  ∨ (0 < bt_j t
     ∧ ∃ b, hw !! (bt_j t - 1) = Some b
       ∧ t' = Trace (bt_i t) (bt_j t - 1) (bt_insertions t + 1)
                (bt_deletions t) (bt_substitutions t)
                (bt_inserted_words t ++ [b]) (bt_deleted_words t)
                (bt_substituted_words t))
  ∨ (0 < bt_i t
     ∧ ∃ a, rw !! (bt_i t - 1) = Some a
       ∧ t' = Trace (bt_i t - 1) (bt_j t) (bt_insertions t)
                (bt_deletions t + 1) (bt_substitutions t)
                (bt_inserted_words t) (bt_deleted_words t ++ [a])
                (bt_substituted_words t))
  ∨ t' = t.
Proof.
  unfold backtrace_step, index, getitem. intros H.
  destruct (0 <? bt_i t) eqn:Hi; destruct (0 <? bt_j t) eqn:Hj;
    try apply Nat.ltb_lt in Hi; try apply Nat.ltb_lt in Hj; cbn in H;
    repeat
      (match type of H with
       | context [match ?x with _ => _ end] => destruct x eqn:?
       end; cbn in H; try discriminate H);
    injection H as <-; eauto 10.
Qed.

Lemma backtrace_step_counts (rw hw : list string) (D : matrix) (t t' : trace) :
  counts_agree t → backtrace_step rw hw D t = Ret t' → counts_agree t'.
Proof.
  intros (Hi & Hd & Hs) Hstep. unfold counts_agree.
  destruct (backtrace_step_cases rw hw D t t' Hstep)
    as [(_ & _ & ->) | [(_ & _ & a & b & _ & _ & ->)
       | [(_ & b & _ & ->) | [(_ & a & _ & ->) | ->]]]];
    cbn; rewrite ?length_app; cbn; lia.
Qed.

#[local] Ltac weaken_bound :=
  eapply Forall_impl; [eassumption | cbn; intros; lia].

Lemma backtrace_step_ordered (rw hw : list string) (D : matrix) (t t' : trace) :
  ordered_so_far rw hw t → backtrace_step rw hw D t = Ret t' →
  ordered_so_far rw hw t'.
Proof.
  intros ((js & Hjs & Hjb & Hjp) & (ks & Hks & Hkb & Hkp)
          & (ps & Hps & Hpb & Hpp)) Hstep.
  unfold ordered_so_far.
  destruct (backtrace_step_cases rw hw D t t' Hstep)
    as [(Hi & Hj & ->) | [(Hi & Hj & a & b & Ha & Hb & ->)
       | [(Hj & b & Hb & ->) | [(Hi & a & Ha & ->) | ->]]]];
    cbn [bt_i bt_j bt_inserted_words bt_deleted_words bt_substituted_words].
  - split_and!.
    + exists js. split_and!; [done | weaken_bound | done].
    + exists ks. split_and!; [done | weaken_bound | done].
    + exists ps. split_and!; [done | weaken_bound | done].
  - split_and!.
    + exists js. split_and!; [done | weaken_bound | done].
    + exists ks. split_and!; [done | weaken_bound | done].
    + exists ((bt_i t - 1, bt_j t - 1) :: ps). rewrite reverse_snoc.
      split_and!.
      * constructor; [done|]. unfold both_lt. weaken_bound.
      * constructor; [cbn; lia | weaken_bound].
      * constructor; done.
  - split_and!.
    + exists ((bt_j t - 1) :: js). rewrite reverse_snoc. split_and!.
      * constructor; [done | weaken_bound].
      * constructor; [lia | weaken_bound].
      * constructor; done.
    + exists ks. split_and!; [done | weaken_bound | done].
    + exists ps. split_and!; [done | weaken_bound | done].
  - split_and!.
    + exists js. split_and!; [done | weaken_bound | done].
    + exists ((bt_i t - 1) :: ks). rewrite reverse_snoc. split_and!.
      * constructor; [done | weaken_bound].
      * constructor; [lia | weaken_bound].
      * constructor; done.
    + exists ps. split_and!; [done | weaken_bound | done].
  - split_and!; eauto.
Qed.

(** The loop keeps [i <= m] and [j <= n]. *)
Lemma backtrace_step_bounds (rw hw : list string) (D : matrix) (t t' : trace) :
  backtrace_step rw hw D t = Ret t' →
  bt_i t' ≤ bt_i t ∧ bt_j t' ≤ bt_j t.
Proof.
  intros Hstep.
  destruct (backtrace_step_cases rw hw D t t' Hstep)
    as [(_ & _ & ->) | [(_ & _ & a & b & _ & _ & ->)
       | [(_ & b & _ & ->) | [(_ & a & _ & ->) | ->]]]]; cbn; lia.
Qed.

End Backtrace.

(** ** The alignment of two token lists *)

Section Align.

Import Py Np Metrics Spec.

(** [align] is the backtrace over the edit-distance matrix, and the
    distance read at line 68 is the cell [(m, n)]. *)
Lemma align_run (rw hw : list string) :
  ∃ D, edit_matrix rw hw D
       ∧ build_matrix rw hw = Ret (Locals (length rw) (length hw) D)
       ∧ ∀ fuel,
           align fuel rw hw =
           (t ← backtrace fuel rw hw D;
            Ret (Breakdown
                   (true_divide (cell D (length rw) (length hw))
                      (Z.of_nat (length rw)))
                   (cell D (length rw) (length hw)) (length rw)
                   (bt_insertions t) (bt_deletions t) (bt_substitutions t)
                   (reverse (bt_inserted_words t))
                   (reverse (bt_deleted_words t))
                   (reverse (bt_substituted_words t)))).
Proof.
  destruct (build_matrix_spec rw hw) as (D & HD & Hedit).
  exists D. split; [done|]. split; [done|]. intros fuel.
  unfold align. rewrite HD. cbn.
  destruct Hedit as (Hsh & _).
  rewrite (getitem_cell _ _ _ _ _ Hsh) by lia. done.
Qed.

(** C2 (the part of the claim the code keeps): for token lists of lengths
    [m] and [n], [calculations] builds without failure a matrix [D] of
    [m+1] rows and [n+1] columns with [D[i][0] = i] and [D[0][j] = j];
    every inner cell [(i, j)] holds [D[i-1][j-1]] when [reference[i-1]]
    equals [hypothesis[j-1]] and
    [min(D[i-1][j-1] + 4, D[i][j-1] + 3, D[i-1][j] + 3)] otherwise; the
    distance read at line 68 is [D[m][n]].  What [calculations] does from
    there is the backtrace over [D] and nothing else: its outcome is the
    outcome of the backtrace, and the result, when the backtrace ends,
    carries the distance [D[m][n]] and the rate [D[m][n] / m].  The
    backtrace does not end on every pair, so the distance is not reported
    for every pair. *)
Theorem matrix_follows_weighted_recurrence (reference_word hypothesis_word : list string) :
  let m := length reference_word in
  let n := length hypothesis_word in
  ∃ D st,
    build_matrix reference_word hypothesis_word = Ret st
    ∧ v_ldm st = D
    ∧ length D = m + 1
    ∧ Forall (λ row, length row = n + 1) D
    ∧ (∀ i, i ≤ m → lookup2 D i 0 = Some (Z.of_nat i))
    ∧ (∀ j, j ≤ n → lookup2 D 0 j = Some (Z.of_nat j))
    ∧ (∀ i j a b, 1 ≤ i ≤ m → 1 ≤ j ≤ n →
         reference_word !! (i - 1) = Some a →
         hypothesis_word !! (j - 1) = Some b →
         lookup2 D i j =
         Some (if decide (a = b) then cell D (i - 1) (j - 1)
               else Z.min (cell D (i - 1) (j - 1) + 4)
                      (Z.min (cell D i (j - 1) + 3) (cell D (i - 1) j + 3))))
    ∧ getitem (v_ldm st) (v_i st) (v_j st) = Ret (cell D m n)
    ∧ (∀ fuel,
         align fuel reference_word hypothesis_word =
         (t ← backtrace fuel reference_word hypothesis_word D;
          Ret (Breakdown (true_divide (cell D m n) (Z.of_nat m))
                 (cell D m n) m
                 (bt_insertions t) (bt_deletions t) (bt_substitutions t)
                 (reverse (bt_inserted_words t))
                 (reverse (bt_deleted_words t))
                 (reverse (bt_substituted_words t)))))
    ∧ (∀ fuel reference hypothesis,
         split reference = reference_word →
         split hypothesis = hypothesis_word →
         calculations fuel (Str reference) (Str hypothesis) =
         (t ← backtrace fuel reference_word hypothesis_word D;
          Ret (Breakdown (true_divide (cell D m n) (Z.of_nat m))
                 (cell D m n) m
                 (bt_insertions t) (bt_deletions t) (bt_substitutions t)
                 (reverse (bt_inserted_words t))
                 (reverse (bt_deleted_words t))
                 (reverse (bt_substituted_words t)))))
    ∧ (∀ fuel r, align fuel reference_word hypothesis_word = Ret r →
         ld r = cell D m n)
    ∧ ∀ fuel reference hypothesis r,
        split reference = reference_word →
        split hypothesis = hypothesis_word →
        calculations fuel (Str reference) (Str hypothesis) = Ret r →
        ld r = cell D m n.
Proof.
  intros m n.
  destruct (align_run reference_word hypothesis_word)
    as (D & (Hsh & [Hcol Hrow] & Hrec) & Hbuild & Halign).
  exists D, (Locals m n D). split; [done|]. split; [done|].
  split; [apply Hsh|]. split; [apply Hsh|]. split_and!.
  - intros i Hi. rewrite (shaped_lookup2 _ _ _ _ _ Hsh) by lia.
    by rewrite Hcol.
  - intros j Hj. rewrite (shaped_lookup2 _ _ _ _ _ Hsh) by lia.
    by rewrite Hrow.
  - intros i j a b Hi Hj Ha Hb.
    rewrite (shaped_lookup2 _ _ _ _ _ Hsh) by (subst m n; lia).
    rewrite Hrec by done. unfold recurrence, same_word. rewrite Ha, Hb.
    destruct (String.eqb_spec a b); [by rewrite decide_True | by rewrite decide_False].
  - cbn. apply (getitem_cell _ _ _ _ _ Hsh); subst m n; lia.
  - intros fuel. apply Halign.
  - intros fuel reference hypothesis <- <-. cbn. apply Halign.
  - intros fuel r. rewrite Halign.
    destruct (backtrace fuel reference_word hypothesis_word D); cbn; [|done..].
    by intros [= <-].
  - intros fuel reference hypothesis r <- <-. cbn. rewrite Halign.
    destruct (backtrace fuel _ _ D); cbn; [|done..].
    by intros [= <-].
Qed.

(** C2 (where the code departs from the claim): on ["a"] against ["b"]
    the matrix is built as claimed and line 68 reads the distance
    [D[1][1] = 4], but no amount of fuel lets [calculations] return: no
    distance is reported. *)
Lemma distance_not_reported :
  build_matrix ["a"] ["b"] = Ret (Locals 1 1 [[0; 1]; [1; 4]]%Z)
  ∧ getitem [[0; 1]; [1; 4]]%Z 1 1 = Ret 4%Z
  ∧ ∀ fuel, calculations fuel (Str "a") (Str "b") = OutOfFuel.
Proof.
  assert (build_matrix ["a"] ["b"] = Ret (Locals 1 1 [[0; 1]; [1; 4]]%Z))
    as Hbuild by (vm_compute; reflexivity).
  split; [done|]. split; [vm_compute; reflexivity|]. intros fuel.
  change (calculations fuel (Str "a") (Str "b")) with (align fuel ["a"] ["b"]).
  unfold align. rewrite Hbuild.
  cbn -[backtrace]. unfold backtrace.
  rewrite while_stuck; [done | done |]. vm_compute. reflexivity.
Qed.

(** C5: when [calculations] returns, each count is the length of its list,
    and each list is read off its sequence at strictly increasing
    positions: inserted words from the hypothesis, deleted words from the
    reference, substituted pairs from both. *)
Theorem counts_and_order (fuel : nat) (reference hypothesis : string) (r : breakdown) :
  calculations fuel (Str reference) (Str hypothesis) = Ret r →
  insertions r = length (inserted_words r)
  ∧ deletions r = length (deleted_words r)
  ∧ substitutions r = length (substituted_words r)
  ∧ left_to_right (split reference) (split hypothesis) r.
Proof.
  cbn. set (rw := split reference). set (hw := split hypothesis).
  destruct (align_run rw hw) as (D & _ & _ & ->).
  destruct (backtrace fuel rw hw D) as [t| |] eqn:Hbt; cbn; [|done..].
  intros [= <-]. cbn.
  destruct (while_invariant (λ t, counts_agree t ∧ ordered_so_far rw hw t)
              backtrace_cond (backtrace_step rw hw D)) with (3 := Hbt)
    as [[(Hi & Hd & Hs) (Hins & Hdel & Hsub)] _].
  - intros s s' [Hc Ho] _ Hstep. split.
    + by eapply backtrace_step_counts.
    + by eapply backtrace_step_ordered.
  - split; [done|]. unfold ordered_so_far. cbn.
    split_and!; eexists []; split_and!; constructor.
  - rewrite !length_reverse. split_and!; [done..|].
    destruct Hins as (js & ? & _ & ?), Hdel as (ks & ? & _ & ?),
      Hsub as (ps & ? & _ & ?).
    split_and!; eauto.
Qed.

Lemma counts_and_order_witness :
  let r := Breakdown (Finite (3 # 2)) 3 2 1 2 0 ["a"] ["a"; "b"] [] in
  calculations 3 (Str "a b") (Str "a") = Ret r
  ∧ insertions r = length (inserted_words r)
  ∧ deletions r = length (deleted_words r)
  ∧ substitutions r = length (substituted_words r)
  ∧ left_to_right (split "a b") (split "a") r.
Proof.
  split; [vm_compute; reflexivity|].
  apply (counts_and_order 3 "a b" "a"). vm_compute. reflexivity.
Defined.

End Align.

(** ** Runs of the backtrace along the border and the diagonal *)

Section Runs.

Import Py Np Metrics Spec.

Lemma true_divide_self (k : Z) : k ≠ 0%Z → true_divide k k = Finite 1.
Proof.
  intros Hk. unfold true_divide. rewrite decide_False by done.
  apply (f_equal Finite).
  change 1%Q with (Qred 1). apply Qred_complete.
  unfold Qdiv. apply Qmult_inv_r.
  unfold Qeq. cbn. lia.
Qed.

Lemma true_divide_zero (k : Z) : k ≠ 0%Z → true_divide 0 k = Finite 0.
Proof.
  intros Hk. unfold true_divide. rewrite decide_False by done.
  apply (f_equal Finite).
  change 0%Q with (Qred 0). apply Qred_complete.
  unfold Qdiv. apply Qmult_0_l.
Qed.

(** A match: both indices step back and nothing is recorded. *)
Lemma step_match (rw hw : list string) (D : matrix) (i j : nat) (a : string)
    (ni nd ns : nat) (iw dw : list string) (sw : list (string * string)) :
  rw !! i = Some a → hw !! j = Some a →
  backtrace_step rw hw D (Trace (S i) (S j) ni nd ns iw dw sw)
  = Ret (Trace i j ni nd ns iw dw sw).
Proof.
  intros Ha Hb. unfold backtrace_step. cbn.
  rewrite !Nat.sub_0_r.
  rewrite (index_lookup _ _ _ Ha), (index_lookup _ _ _ Hb). cbn.
  by rewrite String.eqb_refl.
Qed.

(** In column 0 the border makes every step a deletion. *)
Lemma step_column (rw hw : list string) (D : matrix) (i : nat) (a : string)
    (ni nd ns : nat) (iw dw : list string) (sw : list (string * string)) :
  edit_matrix rw hw D → rw !! i = Some a →
  backtrace_step rw hw D (Trace (S i) 0 ni nd ns iw dw sw)
  = Ret (Trace i 0 ni (nd + 1) ns iw (dw ++ [a]) sw).
Proof.
  intros (Hsh & [Hcol _] & _) Ha.
  assert (i < length rw) by (by eapply lookup_lt_Some).
  unfold backtrace_step. cbn. rewrite !Nat.sub_0_r.
  pose proof (λ i j, getitem_cell _ _ D i j Hsh) as Hget.
  repeat (rewrite Hget by lia; cbn).
  rewrite !Hcol by lia.
  rewrite (proj2 (Z.eqb_eq _ _)) by lia.
  by rewrite (index_lookup _ _ _ Ha).
Qed.

(** In row 0 the border makes every step an insertion. *)
Lemma step_row (rw hw : list string) (D : matrix) (j : nat) (b : string)
    (ni nd ns : nat) (iw dw : list string) (sw : list (string * string)) :
  edit_matrix rw hw D → hw !! j = Some b →
  backtrace_step rw hw D (Trace 0 (S j) ni nd ns iw dw sw)
  = Ret (Trace 0 j (ni + 1) nd ns (iw ++ [b]) dw sw).
Proof.
  intros (Hsh & [_ Hrow] & _) Hb.
  assert (j < length hw) by (by eapply lookup_lt_Some).
  unfold backtrace_step. cbn. rewrite !Nat.sub_0_r.
  pose proof (λ i j, getitem_cell _ _ D i j Hsh) as Hget.
  repeat (rewrite Hget by lia; cbn).
  rewrite !Hrow by lia.
  rewrite (proj2 (Z.eqb_eq _ _)) by lia.
  by rewrite (index_lookup _ _ _ Hb).
Qed.

Lemma run_diagonal (rw : list string) (D : matrix) (k fuel : nat)
    (ni nd ns : nat) (iw dw : list string) (sw : list (string * string)) :
  k ≤ length rw → k ≤ fuel →
  while fuel backtrace_cond (backtrace_step rw rw D)
    (Trace k k ni nd ns iw dw sw)
  = Ret (Trace 0 0 ni nd ns iw dw sw).
Proof.
  revert fuel. induction k as [|k IH]; intros fuel Hk Hfuel.
  - by apply while_done.
  - destruct fuel as [|fuel]; [lia|].
    destruct (lookup_lt_is_Some_2 rw k) as [a Ha]; [lia|].
    rewrite (while_unfold _ _ _ _ _ eq_refl (step_match rw rw D k k a _ _ _ _ _ _ Ha Ha)).
    apply IH; lia.
Qed.

Lemma run_column (rw hw : list string) (D : matrix) (k fuel : nat)
    (ni nd ns : nat) (iw dw : list string) (sw : list (string * string)) :
  edit_matrix rw hw D → k ≤ length rw → k ≤ fuel →
  while fuel backtrace_cond (backtrace_step rw hw D)
    (Trace k 0 ni nd ns iw dw sw)
  = Ret (Trace 0 0 ni (nd + k) ns iw (dw ++ reverse (take k rw)) sw).
Proof.
  intros HD. revert fuel nd dw. induction k as [|k IH]; intros fuel nd dw Hk Hfuel.
  - rewrite while_done by done. by rewrite Nat.add_0_r, app_nil_r.
  - destruct fuel as [|fuel]; [lia|].
    destruct (lookup_lt_is_Some_2 rw k) as [a Ha]; [lia|].
    rewrite (while_unfold _ _ _ _ _ eq_refl (step_column rw hw D k a _ _ _ _ _ _ HD Ha)).
    rewrite IH by lia.
    rewrite (take_S_r _ _ _ Ha), reverse_snoc, <- app_assoc. cbn.
    do 2 f_equal. lia.
Qed.

Lemma run_row (rw hw : list string) (D : matrix) (k fuel : nat)
    (ni nd ns : nat) (iw dw : list string) (sw : list (string * string)) :
  edit_matrix rw hw D → k ≤ length hw → k ≤ fuel →
  while fuel backtrace_cond (backtrace_step rw hw D)
    (Trace 0 k ni nd ns iw dw sw)
  = Ret (Trace 0 0 (ni + k) nd ns (iw ++ reverse (take k hw)) dw sw).
Proof.
  intros HD. revert fuel ni iw. induction k as [|k IH]; intros fuel ni iw Hk Hfuel.
  - rewrite while_done by done. by rewrite Nat.add_0_r, app_nil_r.
  - destruct fuel as [|fuel]; [lia|].
    destruct (lookup_lt_is_Some_2 hw k) as [b Hb]; [lia|].
    rewrite (while_unfold _ _ _ _ _ eq_refl (step_row rw hw D k b _ _ _ _ _ _ HD Hb)).
    rewrite IH by lia.
    rewrite (take_S_r _ _ _ Hb), reverse_snoc, <- app_assoc. cbn.
    do 2 f_equal. lia.
Qed.

(** On equal token lists the diagonal of the matrix is zero. *)
Lemma diagonal_zero (rw : list string) (D : matrix) (k : nat) :
  edit_matrix rw rw D → k ≤ length rw → cell D k k = 0%Z.
Proof.
  intros (Hsh & [Hcol _] & Hrec). induction k as [|k IH]; intros Hk.
  - by rewrite Hcol by lia.
  - destruct (lookup_lt_is_Some_2 rw k) as [a Ha]; [lia|].
    rewrite Hrec by lia. unfold recurrence, same_word. cbn.
    rewrite !Nat.sub_0_r, Ha, String.eqb_refl. apply IH. lia.
Qed.

End Runs.

(** ** Properties of [calculations] *)

Section Calculations.

Import Py Np Metrics Spec.

Lemma calculations_fuel_mono (fuel fuel' : nat) (x y : pyobj) (r : breakdown) :
  calculations fuel x y = Ret r → fuel ≤ fuel' →
  calculations fuel' x y = Ret r.
Proof.
  destruct x as [s1|]; [|done]. destruct y as [s2|]; [|done]. cbn.
  destruct (align_run (split s1) (split s2)) as (D & _ & _ & Halign).
  rewrite !Halign. unfold backtrace.
  destruct (while fuel _ _ _) as [t| |] eqn:Hrun; cbn; [|done..].
  intros Hr Hle. by rewrite (while_fuel_mono _ _ _ _ _ _ Hrun Hle).
Qed.

(** C1 (the code departs from the claim): on ["a b c"] against ["a x c"]
    the distance is 4 and the rate 4/3, but the backtrace reports no
    substitution: it reports the insertions [a], [x] and the deletions
    [a], [b]. *)
Theorem middle_substitution_breakdown (fuel : nat) :
  calculations (5 + fuel) (Str "a b c") (Str "a x c")
  = Ret (Breakdown (Finite (4 # 3)) 4 3 2 2 0 ["a"; "x"] ["a"; "b"] []).
Proof.
  apply (calculations_fuel_mono 5); [|lia]. vm_compute. reflexivity.
Qed.

(** C3 (the code departs from the claim): on ["a"] against ["b"] the
    backtrace never leaves the cell [(1, 1)]: no amount of fuel lets
    [calculations] return. *)
Theorem backtrace_never_returns (fuel : nat) :
  calculations fuel (Str "a") (Str "b") = OutOfFuel.
Proof.
  change (calculations fuel (Str "a") (Str "b")) with (align fuel ["a"] ["b"]).
  unfold align.
  replace (build_matrix ["a"] ["b"])
    with (Ret (Locals 1 1 [[0; 1]; [1; 4]]%Z)) by (vm_compute; reflexivity).
  cbn -[backtrace]. unfold backtrace.
  rewrite while_stuck; [done | done |]. vm_compute. reflexivity.
Qed.

(** C4, as amended: for every reference string [R] with at least one word,
    [calculations(R, R)] returns distance 0, rate 0.0, no insertion,
    deletion or substitution, and three empty lists. *)
Theorem identity_alignment (fuel : nat) (R : string) :
  1 ≤ length (split R) → length (split R) ≤ fuel →
  calculations fuel (Str R) (Str R)
  = Ret (Breakdown (Finite 0) 0 (length (split R)) 0 0 0 [] [] []).
Proof.
  intros Hm Hfuel. cbn. set (rw := split R) in *.
  destruct (align_run rw rw) as (D & HD & _ & ->).
  unfold backtrace. rewrite run_diagonal by done. cbn.
  rewrite (diagonal_zero rw D _ HD) by done.
  rewrite true_divide_zero by lia. done.
Qed.

Lemma identity_alignment_witness :
  calculations 2 (Str "no one") (Str "no one")
  = Ret (Breakdown (Finite 0) 0 2 0 0 0 [] [] []).
Proof.
  apply (identity_alignment 2 "no one"); vm_compute; lia.
Defined.

(** C4, as stated, fails: a reference made of one space is a non-empty
    string without words, and the rate of [calculations(R, R)] is [nan]. *)
Lemma identity_alignment_blank_reference :
  String.length " " = 1
  ∧ calculations 0 (Str " ") (Str " ")
    = Ret (Breakdown NaN 0 0 0 0 0 [] [] []).
Proof. split; vm_compute; reflexivity. Qed.

(** C6, as amended: when the reference has no word, [calculations] does not
    fail: it returns a rate that is not a number ([nan] when the
    hypothesis has no word either, [+inf] otherwise), the distance [n],
    and the [n] words of the hypothesis as insertions. *)
Theorem empty_reference_returns (fuel : nat) (reference hypothesis : string) :
  split reference = [] → length (split hypothesis) ≤ fuel →
  calculations fuel (Str reference) (Str hypothesis)
  = Ret (Breakdown
           (if decide (length (split hypothesis) = 0) then NaN else PosInf)
           (Z.of_nat (length (split hypothesis))) 0
           (length (split hypothesis)) 0 0 (split hypothesis) [] []).
Proof.
  intros Href Hfuel. cbn. rewrite Href. set (hw := split hypothesis) in *.
  destruct (align_run [] hw) as (D & HD & _ & ->).
  unfold backtrace. cbn [length]. rewrite (run_row [] hw D) by done.
  cbn -[reverse take]. rewrite take_ge by lia. rewrite reverse_involutive.
  destruct HD as (_ & [_ Hrow] & _). rewrite Hrow by lia.
  unfold true_divide. cbn. repeat case_decide; try lia; done.
Qed.

Lemma empty_reference_returns_witness :
  calculations 1 (Str "") (Str "b")
  = Ret (Breakdown PosInf 1 0 1 0 0 ["b"] [] []).
Proof.
  apply (empty_reference_returns 1 "" "b"); vm_compute; [reflexivity | lia].
Defined.

(** C6, as stated, fails: with an empty reference and the hypothesis ["b"]
    no error is raised, and a result is returned. *)
Lemma empty_reference_no_error :
  split "" = []
  ∧ calculations 1 (Str "") (Str "b")
    = Ret (Breakdown PosInf 1 0 1 0 0 ["b"] [] []).
Proof. split; vm_compute; reflexivity. Qed.

(** C10: when the reference has [m >= 1] words and the hypothesis none,
    [calculations] returns distance [m], rate 1.0, [m] deletions whose
    list is the reference word list in order, and no insertion or
    substitution. *)
Theorem empty_hypothesis_deletes_all (fuel : nat) (reference hypothesis : string) :
  1 ≤ length (split reference) → split hypothesis = [] →
  length (split reference) ≤ fuel →
  calculations fuel (Str reference) (Str hypothesis)
  = Ret (Breakdown (Finite 1) (Z.of_nat (length (split reference)))
           (length (split reference)) 0 (length (split reference)) 0
           [] (split reference) []).
Proof.
  intros Hm Hhyp Hfuel. cbn. rewrite Hhyp. set (rw := split reference) in *.
  destruct (align_run rw []) as (D & HD & _ & ->).
  unfold backtrace. cbn [length]. rewrite (run_column rw [] D) by done.
  cbn -[reverse take]. rewrite take_ge by lia. rewrite reverse_involutive.
  destruct HD as (_ & [Hcol _] & _). rewrite Hcol by lia.
  rewrite true_divide_self by lia. done.
Qed.

Lemma empty_hypothesis_deletes_all_witness :
  calculations 3 (Str "a b c") (Str "")
  = Ret (Breakdown (Finite 1) 3 3 0 3 0 [] ["a"; "b"; "c"] []).
Proof.
  apply (empty_hypothesis_deletes_all 3 "a b c" ""); vm_compute;
    [lia | reflexivity | lia].
Defined.

End Calculations.

(** ** The batch layer and the projection of the rates *)

Section Batch.

Import Py Np Metrics Wers Spec.

Lemma map_calls_ret {A B : Type} (f : A → outcome B) (l : list A) (ys : list B) :
  map_calls f l = Ret ys → Forall2 (λ x y, f x = Ret y) l ys.
Proof.
  revert ys. induction l as [|x l IH]; intros ys; cbn.
  - intros [= <-]. constructor.
  - destruct (f x) as [y| |] eqn:Hx; cbn; [|done..].
    destruct (map_calls f l) as [ys'| |]; cbn; [|done..].
    intros [= <-]. constructor; [done | by apply IH].
Qed.

Lemma entry_texts (l : list string) (k : nat) (x : string) :
  l !! k = Some x → entry (Texts l) k = Ret (Str x).
Proof.
  intros Hx. assert (k < length l) by (by eapply lookup_lt_Some).
  assert (index (entries (Texts l)) k = Ret (Str x)) as Hk.
  { apply index_lookup. cbn. by rewrite list_lookup_fmap, Hx. }
  unfold entry. cbn [arg_shape].
  destruct (length l) as [|[|n]] eqn:Hlen; [lia | | done].
  by replace k with 0 in Hk by lia.
Qed.

Lemma first_entry_texts (l : list string) (x : string) :
  l !! 0 = Some x → first_entry (Texts l) = Ret (Str (rstrip_nul x)).
Proof.
  intros Hx. unfold first_entry.
  rewrite (index_lookup _ _ (Str x)); [done|].
  cbn. by rewrite list_lookup_fmap, Hx.
Qed.

(** C7 (the code departs from the claim): a reference collection of one
    text against a hypothesis collection of two is not refused: the one
    reference is paired with each hypothesis, and [wers] prints nothing. *)
Theorem unequal_lengths_are_broadcast (v : release) (fuel : nat) :
  let r := Breakdown (Finite 0) 0 1 0 0 0 [] [] [] in
  metrics v (1 + fuel) (Texts ["a"]) (Texts ["a"; "a"]) = Ret (Many [r; r])
  ∧ wers v (1 + fuel) (Texts ["a"]) (Texts ["a"; "a"])
    = Run [] (Ret (PyList [Finite 0; Finite 0])).
Proof.
  intros r.
  assert (calculations (1 + fuel) (Str "a") (Str "a") = Ret r) as Hr.
  { apply (calculations_fuel_mono 1); [|lia]. vm_compute. reflexivity. }
  assert (metrics v (1 + fuel) (Texts ["a"]) (Texts ["a"; "a"]) = Ret (Many [r; r]))
    as Hm.
  { unfold metrics, vectorize. cbn -[calculations Nat.add].
    rewrite decide_False by lia. cbn -[calculations Nat.add].
    rewrite !Hr. cbn -[calculations Nat.add].
    rewrite decide_False, decide_True by lia. cbn -[calculations Nat.add].
    by rewrite !Hr. }
  split; [done|]. unfold wers. by rewrite Hm.
Qed.

(** C8 (the code departs from the claim on a pair of strings, from numpy
    2.3.0 on): when [metrics] returns on two collections of [k] texts
    each, it returns [k] arrays, the [i]-th being what [calculations]
    returns on the [i]-th pair, and [wers] returns the list of their rates
    in that order, under either numpy release.  When [metrics] returns on
    a pair of texts, its result comes from the call of [calculations] on
    that pair; before numpy 2.3.0 [wers] returns the rate of that call as
    a single float, and from 2.3.0 on the result is a 0-d array, line 55
    raises [IndexError] and [wers] returns no rate. *)
Theorem wers_projects_rates :
  (∀ v fuel refs hyps b,
     length refs = length hyps →
     metrics v fuel (Texts refs) (Texts hyps) = Ret b →
     ∃ rs, b = Many rs
           ∧ length rs = length refs
           ∧ (∀ i x y, refs !! i = Some x → hyps !! i = Some y →
                ∃ r, rs !! i = Some r
                     ∧ calculations fuel (Str x) (Str y) = Ret r)
           ∧ wers v fuel (Texts refs) (Texts hyps)
             = Run [] (Ret (PyList (wer <$> rs))))
  ∧ (∀ v fuel x y b,
       metrics v fuel (Text x) (Text y) = Ret b →
       ∃ r, calculations fuel (Str x) (Str y) = Ret r
            ∧ match v with
              | Before_2_3 =>
                  b = Single r
                  ∧ wers v fuel (Text x) (Text y)
                    = Run [] (Ret (PyFloat (wer r)))
              | From_2_3 =>
                  b = Boxed r
                  ∧ wers v fuel (Text x) (Text y) = Run [] (Raise IndexError)
              end).
Proof.
  split.
  - intros v fuel refs hyps b Hlen Hm.
    assert (∃ rs, b = Many rs ∧ length rs = length refs ∧ rs ≠ []
                  ∧ Forall2 (λ i r, (x ← entry (Texts refs) i;
                                      y ← entry (Texts hyps) i;
                                      calculations fuel x y) = Ret r)
                      (seq 0 (length refs)) rs) as (rs & -> & Hrs & Hne & Hall).
    { revert Hm. unfold metrics, vectorize. cbn [arg_size arg_shape].
      case_decide as Hsize; [done|].
      destruct (first_entry (Texts refs)) as [x0| |];
        cbn [mbind outcome_bind]; [|done..].
      destruct (first_entry (Texts hyps)) as [y0| |];
        cbn [mbind outcome_bind]; [|done..].
      destruct (calculations fuel x0 y0); cbn [mbind outcome_bind]; [|done..].
      unfold broadcast. rewrite decide_True by done.
      destruct (map_calls _ _) as [rs| |] eqn:Hcalls;
        cbn [mbind outcome_bind]; [|done..].
      intros [= <-]. exists rs. apply map_calls_ret in Hcalls.
      pose proof (Forall2_length _ _ _ Hcalls) as Hl. rewrite length_seq in Hl.
      split_and!; [done | done | | done].
      intros ->. cbn in Hl. lia. }
    exists rs. split_and!; [done | done | |].
    + intros i x y Hx Hy.
      assert (i < length refs) as Hi by (by eapply lookup_lt_Some).
      destruct (lookup_lt_is_Some_2 rs i) as [r Hr]; [lia|].
      exists r. split; [done|].
      assert (seq 0 (length refs) !! i = Some i) as Hseq
        by (by rewrite lookup_seq_lt).
      pose proof (Forall2_lookup_lr _ _ _ _ _ _ Hall Hseq Hr) as Hcall.
      cbn beta in Hcall.
      by rewrite (entry_texts _ _ _ Hx), (entry_texts _ _ _ Hy) in Hcall.
    + unfold wers. rewrite Hm. f_equal.
      destruct rs as [|r0 rs]; [done|]. done.
  - intros v fuel x y b. unfold wers, metrics, vectorize.
    cbn -[calculations rstrip_nul].
    rewrite decide_False by lia. cbn -[calculations rstrip_nul].
    destruct (calculations fuel (Str (rstrip_nul x)) (Str (rstrip_nul y)));
      cbn -[calculations rstrip_nul]; [|done..].
    destruct (calculations fuel (Str x) (Str y)) as [r| |];
      cbn -[calculations rstrip_nul]; [|done..].
    destruct v; intros [= <-]; by exists r.
Qed.

Lemma wers_projects_rates_witness :
  wers From_2_3 2 (Texts ["a b"; "a"]) (Texts ["a b"; ""])
  = Run [] (Ret (PyList [Finite 0; Finite 1]))
  ∧ wers Before_2_3 2 (Text "a b") (Text "")
    = Run [] (Ret (PyFloat (Finite 1)))
  ∧ wers From_2_3 2 (Text "a b") (Text "") = Run [] (Raise IndexError).
Proof.
  split; [|split].
  - destruct (proj1 wers_projects_rates From_2_3 2 ["a b"; "a"] ["a b"; ""]
                (Many [Breakdown (Finite 0) 0 2 0 0 0 [] [] [];
                       Breakdown (Finite 1) 1 1 0 1 0 [] ["a"] []]))
      as (rs & [= <-] & _ & _ & ->); [reflexivity | vm_compute; reflexivity |].
    reflexivity.
  - destruct (proj2 wers_projects_rates Before_2_3 2 "a b" ""
                (Single (Breakdown (Finite 1) 2 2 0 2 0 [] ["a"; "b"] [])))
      as (r & Hr & [= <-] & ->); [vm_compute; reflexivity |].
    reflexivity.
  - destruct (proj2 wers_projects_rates From_2_3 2 "a b" ""
                (Boxed (Breakdown (Finite 1) 2 2 0 2 0 [] ["a"; "b"] [])))
      as (r & Hr & [= <-] & ->); [vm_compute; reflexivity |].
    reflexivity.
Defined.

(** C9: when [metrics] raises [ValueError] (shapes that do not match) or
    [AttributeError] (an entry that is not a text), [wers] raises nothing:
    it prints the message of the error and returns [None]. *)
Theorem wers_reports_errors (v : release) (fuel : nat)
    (reference hypothesis : pyarg) (e : exn) :
  metrics v fuel reference hypothesis = Raise e →
  e = ValueError ∨ e = AttributeError →
  wers v fuel reference hypothesis
  = Run [match e with
         | ValueError => value_error_message
         | _ => attribute_error_message
         end]
        (Ret PyNone).
Proof.
  intros Hm He. unfold wers. rewrite Hm.
  destruct He as [-> | ->]; done.
Qed.

Lemma wers_reports_errors_witness :
  wers From_2_3 1 (Texts ["a"; "b"]) (Texts ["a"; "b"; "c"])
  = Run [value_error_message] (Ret PyNone)
  ∧ wers From_2_3 1 (Texts ["a"]) (Numbers [1%Z])
    = Run [attribute_error_message] (Ret PyNone).
Proof.
  split.
  - apply (wers_reports_errors From_2_3 1 _ _ ValueError);
      [vm_compute; reflexivity | by left].
  - apply (wers_reports_errors From_2_3 1 _ _ AttributeError);
      [vm_compute; reflexivity | by right].
Defined.

End Batch.

(** ** Further properties *)

Section Further.

Import Py Np Metrics Wers Spec.

Lemma cells_bounded_sum (rw hw : list string) (D : matrix) :
  edit_matrix rw hw D →
  ∀ s i j, i + j = s → i ≤ length rw → j ≤ length hw →
    (0 ≤ cell D i j ≤ 3 * Z.of_nat (i + j))%Z.
Proof.
  intros (Hsh & [Hcol Hrow] & Hrec) s.
  induction s as [s IH] using lt_wf_ind. intros i j Hs Hi Hj.
  destruct (decide (i = 0)) as [->|Hi0]; [rewrite Hrow by done; lia|].
  destruct (decide (j = 0)) as [->|Hj0]; [rewrite Hcol by done; lia|].
  rewrite Hrec by lia. unfold recurrence.
  pose proof (IH (i - 1 + (j - 1)) ltac:(lia) (i - 1) (j - 1) eq_refl
                ltac:(lia) ltac:(lia)).
  pose proof (IH (i + (j - 1)) ltac:(lia) i (j - 1) eq_refl
                ltac:(lia) ltac:(lia)).
  pose proof (IH (i - 1 + j) ltac:(lia) (i - 1) j eq_refl
                ltac:(lia) ltac:(lia)).
  destruct (same_word rw hw i j); lia.
Qed.

(** The cells of the matrix are non-negative and at most [3 * (i + j)]:
    they stay far from the limits of [int64]. *)
Theorem cells_bounded (reference_word hypothesis_word : list string) :
  ∃ D, build_matrix reference_word hypothesis_word
       = Ret (Locals (length reference_word) (length hypothesis_word) D)
       ∧ ∀ i j, i ≤ length reference_word → j ≤ length hypothesis_word →
           (0 ≤ cell D i j ≤ 3 * Z.of_nat (i + j))%Z.
Proof.
  destruct (build_matrix_spec reference_word hypothesis_word) as (D & HD & Hedit).
  exists D. split; [done|]. intros i j Hi Hj.
  by eapply cells_bounded_sum.
Qed.

(** Inside the matrix an iteration of the backtrace raises nothing. *)
Lemma backtrace_step_returns (rw hw : list string) (D : matrix) (t : trace) :
  shaped (length rw + 1) (length hw + 1) D →
  bt_i t ≤ length rw → bt_j t ≤ length hw →
  ∃ t', backtrace_step rw hw D t = Ret t'.
Proof.
  intros Hsh Hi Hj.
  pose proof (λ i j, getitem_cell _ _ D i j Hsh) as Hget.
  destruct t as [i j ni nd ns iw dw sw]. cbn in Hi, Hj.
  assert (∀ k, k < length rw → ∃ a, index rw k = Ret a) as Hrw.
  { intros k Hk. destruct (lookup_lt_is_Some_2 rw k Hk) as [a Ha].
    exists a. by apply index_lookup. }
  assert (∀ k, k < length hw → ∃ b, index hw k = Ret b) as Hhw.
  { intros k Hk. destruct (lookup_lt_is_Some_2 hw k Hk) as [b Hb].
    exists b. by apply index_lookup. }
  unfold backtrace_step.
  destruct i as [|i], j as [|j]; cbn; rewrite ?Nat.sub_0_r.
  - eauto.
  - repeat (rewrite Hget by lia; cbn).
    destruct (Hhw j) as [b ->]; [lia|].
    destruct (_ =? _)%Z; cbn; eauto.
  - repeat (rewrite Hget by lia; cbn).
    destruct (Hrw i) as [a ->]; [lia|].
    destruct (_ =? _)%Z; cbn; eauto.
  - destruct (Hrw i) as [a ->]; [lia|]. destruct (Hhw j) as [b ->]; [lia|].
    cbn. destruct (String.eqb a b); [eauto|].
    repeat (rewrite Hget by lia; cbn).
    destruct (_ =? _)%Z; cbn; [eauto|].
    repeat (rewrite Hget by lia; cbn).
    destruct (_ =? _)%Z; cbn; [eauto|].
    repeat (rewrite Hget by lia; cbn).
    destruct (_ =? _)%Z; cbn; eauto.
Qed.

Lemma while_no_raise {S : Type} (Inv : S → Prop) (cond : S → bool)
    (body : S → outcome S) :
  (∀ s, Inv s → ∃ s', body s = Ret s' ∧ Inv s') →
  ∀ fuel s, Inv s →
    (∃ s', while fuel cond body s = Ret s') ∨ while fuel cond body s = OutOfFuel.
Proof.
  intros Hbody fuel. induction fuel as [|fuel IH]; intros s Hs; cbn.
  - destruct (cond s); eauto.
  - destruct (cond s); [|eauto].
    destruct (Hbody s Hs) as (s' & -> & Hs'). cbn. by apply IH.
Qed.

(** On two strings [calculations] raises no exception: it returns, or its
    backtrace is still running when the fuel is spent. *)
Theorem calculations_raises_nothing (fuel : nat) (reference hypothesis : string) :
  (∃ r, calculations fuel (Str reference) (Str hypothesis) = Ret r)
  ∨ calculations fuel (Str reference) (Str hypothesis) = OutOfFuel.
Proof.
  cbn. set (rw := split reference). set (hw := split hypothesis).
  destruct (align_run rw hw) as (D & (Hsh & _) & _ & ->).
  unfold backtrace.
  destruct (while_no_raise
              (λ t, bt_i t ≤ length rw ∧ bt_j t ≤ length hw)
              backtrace_cond (backtrace_step rw hw D)) with
    (fuel := fuel) (s := Trace (length rw) (length hw) 0 0 0 [] [] [])
    as [[t ->] | ->]; cbn; eauto.
  intros t [Hi Hj].
  destruct (backtrace_step_returns rw hw D t Hsh Hi Hj) as [t' Ht'].
  exists t'. split; [done|].
  destruct (backtrace_step_bounds rw hw D t t' Ht'). lia.
Qed.

(** Collections of different lengths, neither of length 1, are
    refused with [ValueError] once the first call of numpy has returned:
    the call on the two first entries as numpy reads them back, without
    the NUL characters at their ends. *)
Theorem metrics_refuses_mismatch (v : release) (fuel : nat) (x y : string)
    (refs hyps : list string) (r : breakdown) :
  calculations fuel (Str (rstrip_nul x)) (Str (rstrip_nul y)) = Ret r →
  length (x :: refs) ≠ length (y :: hyps) →
  refs ≠ [] → hyps ≠ [] →
  metrics v fuel (Texts (x :: refs)) (Texts (y :: hyps)) = Raise ValueError.
Proof.
  intros Hr Hlen Hrefs Hhyps. unfold metrics, vectorize.
  cbn [arg_size arg_shape length].
  rewrite decide_False by lia.
  rewrite (first_entry_texts (x :: refs) x), (first_entry_texts (y :: hyps) y)
    by done.
  cbn [mbind outcome_bind].
  rewrite Hr. cbn [mbind outcome_bind]. unfold broadcast.
  rewrite !(decide_False (P := _ = _)); [done | | | done].
  - destruct hyps; cbn; [done | lia].
  - destruct refs; cbn; [done | lia].
Qed.

Lemma metrics_refuses_mismatch_witness :
  metrics From_2_3 1 (Texts ["a"; "b"]) (Texts ["a"; "b"; "c"])
  = Raise ValueError.
Proof.
  apply (metrics_refuses_mismatch From_2_3 1 "a" "a" ["b"] ["b"; "c"]
           (Breakdown (Finite 0) 0 1 0 0 0 [] [] []));
    [vm_compute; reflexivity | cbn; lia | done | done].
Defined.

End Further.

(** ** What the backtrace can and cannot record *)

Section Edits.

Import Py Np Metrics Spec.

(** Every cell differs from [i + j] by an even number: the border starts
    so, and the steps 0, 4 along the diagonal and 3 along a row or column
    keep it so. *)
Lemma cells_parity_sum (rw hw : list string) (D : matrix) :
  edit_matrix rw hw D →
  ∀ s i j, i + j = s → i ≤ length rw → j ≤ length hw →
    ∃ k : Z, cell D i j = (Z.of_nat (i + j) + 2 * k)%Z.
Proof.
  intros (Hsh & [Hcol Hrow] & Hrec) s.
  induction s as [s IH] using lt_wf_ind. intros i j Hs Hi Hj.
  destruct (decide (i = 0)) as [->|Hi0].
  { exists 0%Z. rewrite Hrow by done. lia. }
  destruct (decide (j = 0)) as [->|Hj0].
  { exists 0%Z. rewrite Hcol by done. lia. }
  rewrite Hrec by lia. unfold recurrence.
  destruct (IH (i - 1 + (j - 1)) ltac:(lia) (i - 1) (j - 1) eq_refl
              ltac:(lia) ltac:(lia)) as [k1 ->].
  destruct (IH (i + (j - 1)) ltac:(lia) i (j - 1) eq_refl
              ltac:(lia) ltac:(lia)) as [k2 ->].
  destruct (IH (i - 1 + j) ltac:(lia) (i - 1) j eq_refl
              ltac:(lia) ltac:(lia)) as [k3 ->].
  destruct (same_word rw hw i j).
  - exists (k1 - 1)%Z. lia.
  - destruct (Z.min_spec (Z.of_nat (i + (j - 1)) + 2 * k2 + 3)
                (Z.of_nat (i - 1 + j) + 2 * k3 + 3)) as [[_ ->]|[_ ->]];
      match goal with
      | |- context [Z.min ?a ?b] =>
          destruct (Z.min_spec a b) as [[_ ->]|[_ ->]]
      end;
      first [ exists (k1 + 1)%Z; lia | exists (k2 + 1)%Z; lia
            | exists (k3 + 1)%Z; lia ].
Qed.

(** Inside the matrix the test of line 79 never holds, so an iteration
    leaves the substitutions as they are. *)
Lemma backtrace_step_no_substitution (rw hw : list string) (D : matrix)
    (t t' : trace) :
  edit_matrix rw hw D →
  bt_i t ≤ length rw → bt_j t ≤ length hw →
  backtrace_step rw hw D t = Ret t' →
  bt_substitutions t' = bt_substitutions t
  ∧ bt_substituted_words t' = bt_substituted_words t.
Proof.
  intros HD Hi Hj.
  pose proof HD as (Hsh & _).
  pose proof (λ i j, getitem_cell _ _ D i j Hsh) as Hget.
  destruct t as [i j ni nd ns iw dw sw]. cbn in Hi, Hj.
  unfold backtrace_step.
  destruct i as [|i], j as [|j]; cbn; rewrite ?Nat.sub_0_r.
  - by intros [= <-].
  - repeat (rewrite Hget by lia; cbn). unfold index.
    destruct (_ =? _)%Z; cbn; [|by intros [= <-]].
    destruct (hw !! j); cbn; [|done]. by intros [= <-].
  - repeat (rewrite Hget by lia; cbn). unfold index.
    destruct (_ =? _)%Z; cbn; [|by intros [= <-]].
    destruct (rw !! i); cbn; [|done]. by intros [= <-].
  - unfold index.
    destruct (rw !! i) as [a|]; cbn; [|done].
    destruct (hw !! j) as [b|]; cbn; [|done].
    destruct (String.eqb a b); [by intros [= <-]|].
    repeat (rewrite Hget by lia; cbn).
    destruct (cell D (S i) (S j) =? cell D i j + 1)%Z eqn:Hsub.
    { apply Z.eqb_eq in Hsub.
      destruct (cells_parity_sum rw hw D HD _ (S i) (S j) eq_refl)
        as [k1 Hk1]; [lia | lia |].
      destruct (cells_parity_sum rw hw D HD _ i j eq_refl)
        as [k2 Hk2]; [lia | lia |].
      lia. }
    cbn. repeat (rewrite Hget by lia; cbn). intros H.
    repeat
      (match type of H with
       | context [if ?x then _ else _] => destruct x eqn:?
       end; cbn in H).
    all: by injection H as <-.
Qed.

(** Whenever [calculations] returns, it reports no substitution: between
    a cell and its diagonal neighbour the difference is even, and the
    backtrace asks for a difference of 1. *)
Theorem substitutions_never_recorded (fuel : nat) (reference hypothesis : string)
    (r : breakdown) :
  calculations fuel (Str reference) (Str hypothesis) = Ret r →
  substitutions r = 0 ∧ substituted_words r = [].
Proof.
  cbn. set (rw := split reference). set (hw := split hypothesis).
  destruct (align_run rw hw) as (D & HD & _ & ->).
  destruct (backtrace fuel rw hw D) as [t| |] eqn:Hbt; cbn; [|done..].
  intros [= <-]. cbn.
  destruct (while_invariant
              (λ t, bt_i t ≤ length rw ∧ bt_j t ≤ length hw
                    ∧ bt_substitutions t = 0 ∧ bt_substituted_words t = [])
              backtrace_cond (backtrace_step rw hw D)) with (3 := Hbt)
    as [(_ & _ & -> & ->) _]; [| done | done].
  intros s s' (Hi & Hj & Hn & Hw) _ Hstep.
  destruct (backtrace_step_bounds rw hw D s s' Hstep).
  destruct (backtrace_step_no_substitution rw hw D s s' HD Hi Hj Hstep)
    as [-> ->].
  split_and!; [lia | lia | done | done].
Qed.

Lemma substitutions_never_recorded_witness :
  let r := Breakdown (Finite (4 # 3)) 4 3 2 2 0 ["a"; "x"] ["a"; "b"] [] in
  calculations 5 (Str "a b c") (Str "a x c") = Ret r
  ∧ substitutions r = 0 ∧ substituted_words r = [].
Proof.
  split; [vm_compute; reflexivity|].
  apply (substitutions_never_recorded 5 "a b c" "a x c").
  vm_compute. reflexivity.
Defined.

(** Whenever [calculations] returns, the edits account for both lengths:
    the words of the reference that are not deleted are as many as the
    words of the hypothesis that are not inserted. *)
Theorem edits_account_for_lengths (fuel : nat) (reference hypothesis : string)
    (r : breakdown) :
  calculations fuel (Str reference) (Str hypothesis) = Ret r →
  m r = length (split reference)
  ∧ deletions r + substitutions r ≤ length (split reference)
  ∧ insertions r + substitutions r ≤ length (split hypothesis)
  ∧ length (split reference) - deletions r
    = length (split hypothesis) - insertions r.
Proof.
  cbn. set (rw := split reference). set (hw := split hypothesis).
  destruct (align_run rw hw) as (D & HD & _ & ->).
  destruct (backtrace fuel rw hw D) as [t| |] eqn:Hbt; cbn; [|done..].
  intros [= <-]. cbn.
  destruct (while_invariant
              (λ t, bt_i t + bt_deletions t + bt_substitutions t ≤ length rw
                    ∧ bt_j t + bt_insertions t + bt_substitutions t ≤ length hw
                    ∧ length rw + bt_j t + bt_insertions t
                      = length hw + bt_i t + bt_deletions t)
              backtrace_cond (backtrace_step rw hw D)) with (3 := Hbt)
    as [(Hi & Hj & Heq) Hend]; [| cbn; lia |].
  - intros s s' (Hi & Hj & Heq) Hcond Hstep.
    destruct (backtrace_step_cases rw hw D s s' Hstep)
      as [(? & ? & ->) | [(? & ? & a & b & _ & _ & ->)
         | [(? & b & _ & ->) | [(? & a & _ & ->) | ->]]]]; cbn; lia.
  - unfold backtrace_cond in Hend. apply orb_false_elim in Hend as [H1 H2].
    apply Nat.ltb_ge in H1, H2. lia.
Qed.

Lemma edits_account_for_lengths_witness :
  let r := Breakdown (Finite (3 # 2)) 3 2 1 2 0 ["a"] ["a"; "b"] [] in
  calculations 3 (Str "a b") (Str "a") = Ret r
  ∧ m r = 2 ∧ deletions r + substitutions r ≤ 2
  ∧ insertions r + substitutions r ≤ 1
  ∧ 2 - deletions r = 1 - insertions r.
Proof.
  split; [vm_compute; reflexivity|].
  apply (edits_account_for_lengths 3 "a b" "a"). vm_compute. reflexivity.
Defined.

End Edits.

(** ** The distance *)

Section Distance.

Import Py Np Metrics Spec.

(** The result of a call that returns, read off the run of [align]. *)
Lemma calculations_ret (fuel : nat) (reference hypothesis : string)
    (r : breakdown) :
  calculations fuel (Str reference) (Str hypothesis) = Ret r →
  ∃ D, edit_matrix (split reference) (split hypothesis) D
       ∧ ld r = cell D (length (split reference)) (length (split hypothesis))
       ∧ m r = length (split reference).
Proof.
  cbn. destruct (align_run (split reference) (split hypothesis))
    as (D & HD & _ & ->).
  destruct (backtrace fuel _ _ D); cbn; [|done..].
  intros [= <-]. by exists D.
Qed.

Lemma cells_lower_sum (rw hw : list string) (D : matrix) :
  edit_matrix rw hw D →
  ∀ s i j, i + j = s → i ≤ length rw → j ≤ length hw →
    (Z.abs (Z.of_nat i - Z.of_nat j) ≤ cell D i j)%Z.
Proof.
  intros (Hsh & [Hcol Hrow] & Hrec) s.
  induction s as [s IH] using lt_wf_ind. intros i j Hs Hi Hj.
  destruct (decide (i = 0)) as [->|Hi0]; [rewrite Hrow by done; lia|].
  destruct (decide (j = 0)) as [->|Hj0]; [rewrite Hcol by done; lia|].
  rewrite Hrec by lia. unfold recurrence.
  pose proof (IH (i - 1 + (j - 1)) ltac:(lia) (i - 1) (j - 1) eq_refl
                ltac:(lia) ltac:(lia)).
  pose proof (IH (i + (j - 1)) ltac:(lia) i (j - 1) eq_refl
                ltac:(lia) ltac:(lia)).
  pose proof (IH (i - 1 + j) ltac:(lia) (i - 1) j eq_refl
                ltac:(lia) ltac:(lia)).
  destruct (same_word rw hw i j); lia.
Qed.

(** Whenever [calculations] returns, the distance lies between the
    difference of the two word counts and three times their sum, and it
    has the parity of their sum. *)
Theorem distance_bounds_and_parity (fuel : nat) (reference hypothesis : string)
    (r : breakdown) :
  calculations fuel (Str reference) (Str hypothesis) = Ret r →
  let m := Z.of_nat (length (split reference)) in
  let n := Z.of_nat (length (split hypothesis)) in
  (Z.abs (m - n) ≤ ld r ≤ 3 * (m + n))%Z
  ∧ Z.even (ld r) = Z.even (m + n).
Proof.
  intros Hr m n. destruct (calculations_ret _ _ _ _ Hr) as (D & HD & -> & _).
  pose proof (cells_lower_sum _ _ D HD _ _ _ eq_refl (Nat.le_refl _)
                (Nat.le_refl _)).
  pose proof (cells_bounded_sum _ _ D HD _ _ _ eq_refl (Nat.le_refl _)
                (Nat.le_refl _)).
  destruct (cells_parity_sum _ _ D HD _ _ _ eq_refl (Nat.le_refl _)
              (Nat.le_refl _)) as [k Hk].
  split; [subst m n; lia|].
  rewrite Hk, Z.even_add_mul_2. f_equal. subst m n. lia.
Qed.

Lemma distance_bounds_and_parity_witness :
  let r := Breakdown (Finite (3 # 2)) 3 2 1 2 0 ["a"] ["a"; "b"] [] in
  calculations 3 (Str "a b") (Str "a") = Ret r
  ∧ (Z.abs (2 - 1) ≤ ld r ≤ 3 * (2 + 1))%Z
  ∧ Z.even (ld r) = Z.even (2 + 1).
Proof.
  split; [vm_compute; reflexivity|].
  apply (distance_bounds_and_parity 3 "a b" "a"). vm_compute. reflexivity.
Defined.

Lemma same_word_sym (rw hw : list string) (i j : nat) :
  same_word rw hw i j = same_word hw rw j i.
Proof.
  unfold same_word.
  destruct (rw !! (i - 1)), (hw !! (j - 1)); try done. apply String.eqb_sym.
Qed.

(** The matrix of the swapped arguments is the transposed matrix. *)
Lemma edit_matrix_transpose (rw hw : list string) (D D' : matrix) :
  edit_matrix rw hw D → edit_matrix hw rw D' →
  ∀ s i j, i + j = s → i ≤ length rw → j ≤ length hw →
    cell D i j = cell D' j i.
Proof.
  intros (_ & [Hcol Hrow] & Hrec) (_ & [Hcol' Hrow'] & Hrec') s.
  induction s as [s IH] using lt_wf_ind. intros i j Hs Hi Hj.
  destruct (decide (i = 0)) as [->|Hi0]; [by rewrite Hrow, Hcol'|].
  destruct (decide (j = 0)) as [->|Hj0]; [by rewrite Hcol, Hrow'|].
  rewrite Hrec, Hrec' by lia. unfold recurrence.
  rewrite (same_word_sym rw hw).
  rewrite (IH (i - 1 + (j - 1)) ltac:(lia) (i - 1) (j - 1) eq_refl
             ltac:(lia) ltac:(lia)).
  rewrite (IH (i + (j - 1)) ltac:(lia) i (j - 1) eq_refl
             ltac:(lia) ltac:(lia)).
  rewrite (IH (i - 1 + j) ltac:(lia) (i - 1) j eq_refl
             ltac:(lia) ltac:(lia)).
  destruct (same_word hw rw j i); lia.
Qed.

(** The distance does not depend on which text is the reference: when
    [calculations] returns on a pair and on the swapped pair, the two
    distances are equal. *)
Theorem distance_symmetric (fuel fuel' : nat) (reference hypothesis : string)
    (r r' : breakdown) :
  calculations fuel (Str reference) (Str hypothesis) = Ret r →
  calculations fuel' (Str hypothesis) (Str reference) = Ret r' →
  ld r = ld r'.
Proof.
  intros Hr Hr'.
  destruct (calculations_ret _ _ _ _ Hr) as (D & HD & -> & _).
  destruct (calculations_ret _ _ _ _ Hr') as (D' & HD' & -> & _).
  by eapply edit_matrix_transpose.
Qed.

Lemma distance_symmetric_witness :
  let r := Breakdown (Finite (3 # 2)) 3 2 1 2 0 ["a"] ["a"; "b"] [] in
  let r' := Breakdown (Finite 3) 3 1 2 1 0 ["a"; "b"] ["a"] [] in
  calculations 3 (Str "a b") (Str "a") = Ret r
  ∧ calculations 3 (Str "a") (Str "a b") = Ret r'
  ∧ ld r = ld r'.
Proof.
  split; [vm_compute; reflexivity|]. split; [vm_compute; reflexivity|].
  apply (distance_symmetric 3 3 "a b" "a"); vm_compute; reflexivity.
Defined.

(** A cell is zero exactly on the diagonal below equal prefixes. *)
Lemma cell_zero_iff (rw hw : list string) (D : matrix) :
  edit_matrix rw hw D →
  ∀ s i j, i + j = s → i ≤ length rw → j ≤ length hw →
    cell D i j = 0%Z ↔ i = j ∧ take i rw = take j hw.
Proof.
  intros HD. pose proof HD as (_ & [Hcol Hrow] & Hrec). intros s.
  induction s as [s IH] using lt_wf_ind. intros i j Hs Hi Hj.
  destruct i as [|i].
  { rewrite Hrow by done. split; [intros ?|intros [<- _]; done].
    assert (j = 0) as -> by lia. done. }
  destruct j as [|j].
  { rewrite Hcol by done. split; [lia | intros [? _]; lia]. }
  destruct (lookup_lt_is_Some_2 rw i) as [a Ha]; [lia|].
  destruct (lookup_lt_is_Some_2 hw j) as [b Hb]; [lia|].
  rewrite (take_S_r _ _ _ Ha), (take_S_r _ _ _ Hb).
  rewrite Hrec by lia. unfold recurrence, same_word. cbn.
  rewrite !Nat.sub_0_r, Ha, Hb.
  destruct (String.eqb_spec a b) as [->|Hab].
  - rewrite (IH (i + j) ltac:(lia) i j eq_refl ltac:(lia) ltac:(lia)).
    split.
    + intros [-> ->]. done.
    + intros [[= ->] Heq]. by apply app_inj_tail in Heq as [-> _].
  - pose proof (cells_bounded_sum rw hw D HD _ i j eq_refl
                  ltac:(lia) ltac:(lia)).
    pose proof (cells_bounded_sum rw hw D HD _ (S i) j eq_refl
                  ltac:(lia) ltac:(lia)).
    pose proof (cells_bounded_sum rw hw D HD _ i (S j) eq_refl
                  ltac:(lia) ltac:(lia)).
    split; [lia|]. intros [_ Heq]. by apply app_inj_tail in Heq as [_ ?].
Qed.

(** Whenever [calculations] returns, the distance is zero exactly when
    the two texts have the same words in the same order. *)
Theorem distance_zero_iff_same_words (fuel : nat) (reference hypothesis : string)
    (r : breakdown) :
  calculations fuel (Str reference) (Str hypothesis) = Ret r →
  ld r = 0%Z ↔ split reference = split hypothesis.
Proof.
  intros Hr. destruct (calculations_ret _ _ _ _ Hr) as (D & HD & -> & _).
  rewrite (cell_zero_iff _ _ D HD _ _ _ eq_refl (Nat.le_refl _) (Nat.le_refl _)).
  rewrite !take_ge by done. split; [by intros [_ ?]|]. by intros ->.
Qed.

Lemma distance_zero_iff_same_words_witness :
  let r := Breakdown (Finite 0) 0 2 0 0 0 [] [] [] in
  calculations 2 (Str "no  one") (Str " no one") = Ret r
  ∧ (ld r = 0%Z ↔ split "no  one" = split " no one").
Proof.
  split; [vm_compute; reflexivity|].
  apply (distance_zero_iff_same_words 2 "no  one" " no one").
  vm_compute. reflexivity.
Defined.

End Distance.

(** ** Inputs on which the backtrace ends, and inputs on which it does not *)

Section Families.

Import Py Np Metrics Spec.

(** When the hypothesis is the reference after [e] extra words, the cells
    [(i, e + i)] all hold [e]. *)
Lemma offdiagonal_hypothesis (rw extra : list string) (D : matrix) (i : nat) :
  edit_matrix rw (extra ++ rw) D → i ≤ length rw →
  cell D i (length extra + i) = Z.of_nat (length extra).
Proof.
  intros (Hsh & [_ Hrow] & Hrec). rewrite length_app in Hrow, Hrec.
  induction i as [|i IH]; intros Hi.
  - rewrite Nat.add_0_r. apply Hrow. lia.
  - destruct (lookup_lt_is_Some_2 rw i) as [a Ha]; [lia|].
    rewrite Hrec by lia. unfold recurrence, same_word.
    replace (length extra + S i - 1) with (length extra + i) by lia.
    replace (S i - 1) with i by lia.
    rewrite lookup_app_r by lia.
    replace (length extra + i - length extra) with i by lia.
    rewrite Ha, String.eqb_refl. apply IH. lia.
Qed.

(** When the reference is the hypothesis after [e] extra words, the cells
    [(e + j, j)] all hold [e]. *)
Lemma offdiagonal_reference (hw extra : list string) (D : matrix) (j : nat) :
  edit_matrix (extra ++ hw) hw D → j ≤ length hw →
  cell D (length extra + j) j = Z.of_nat (length extra).
Proof.
  intros (Hsh & [Hcol _] & Hrec). rewrite length_app in Hcol, Hrec.
  induction j as [|j IH]; intros Hj.
  - rewrite Nat.add_0_r. apply Hcol. lia.
  - destruct (lookup_lt_is_Some_2 hw j) as [b Hb]; [lia|].
    rewrite Hrec by lia. unfold recurrence, same_word.
    replace (length extra + S j - 1) with (length extra + j) by lia.
    replace (S j - 1) with j by lia.
    rewrite lookup_app_r by lia.
    replace (length extra + j - length extra) with j by lia.
    rewrite Hb, String.eqb_refl. apply IH. lia.
Qed.

Lemma run_offdiagonal_hypothesis (rw extra : list string) (D : matrix)
    (k fuel : nat) (ni nd ns : nat) (iw dw : list string)
    (sw : list (string * string)) :
  edit_matrix rw (extra ++ rw) D →
  k ≤ length rw → length extra + k ≤ fuel →
  while fuel backtrace_cond (backtrace_step rw (extra ++ rw) D)
    (Trace k (length extra + k) ni nd ns iw dw sw)
  = Ret (Trace 0 0 (ni + length extra) nd ns (iw ++ reverse extra) dw sw).
Proof.
  intros HD. revert fuel. induction k as [|k IH]; intros fuel Hk Hfuel.
  - rewrite Nat.add_0_r.
    rewrite (run_row rw (extra ++ rw) D) by (rewrite ?length_app; done || lia).
    by rewrite take_app_length.
  - destruct fuel as [|fuel]; [lia|].
    destruct (lookup_lt_is_Some_2 rw k) as [a Ha]; [lia|].
    assert ((extra ++ rw) !! (length extra + k) = Some a) as Hb.
    { rewrite lookup_app_r by lia.
      by replace (length extra + k - length extra) with k by lia. }
    rewrite Nat.add_succ_r.
    rewrite (while_unfold _ _ _ _ _ eq_refl
               (step_match rw (extra ++ rw) D k _ a _ _ _ _ _ _ Ha Hb)).
    apply IH; lia.
Qed.

Lemma run_offdiagonal_reference (hw extra : list string) (D : matrix)
    (k fuel : nat) (ni nd ns : nat) (iw dw : list string)
    (sw : list (string * string)) :
  edit_matrix (extra ++ hw) hw D →
  k ≤ length hw → length extra + k ≤ fuel →
  while fuel backtrace_cond (backtrace_step (extra ++ hw) hw D)
    (Trace (length extra + k) k ni nd ns iw dw sw)
  = Ret (Trace 0 0 ni (nd + length extra) ns iw (dw ++ reverse extra) sw).
Proof.
  intros HD. revert fuel. induction k as [|k IH]; intros fuel Hk Hfuel.
  - rewrite Nat.add_0_r.
    rewrite (run_column (extra ++ hw) hw D) by (rewrite ?length_app; done || lia).
    by rewrite take_app_length.
  - destruct fuel as [|fuel]; [lia|].
    destruct (lookup_lt_is_Some_2 hw k) as [b Hb]; [lia|].
    assert ((extra ++ hw) !! (length extra + k) = Some b) as Ha.
    { rewrite lookup_app_r by lia.
      by replace (length extra + k - length extra) with k by lia. }
    rewrite Nat.add_succ_r.
    rewrite (while_unfold _ _ _ _ _ eq_refl
               (step_match (extra ++ hw) hw D _ k b _ _ _ _ _ _ Ha Hb)).
    apply IH; lia.
Qed.

(** When the hypothesis is [e] extra words followed by the words of the
    reference, [calculations] returns: the distance is [e] (one per extra
    word, not three), the extra words are the insertions, and nothing is
    deleted or substituted. *)
Theorem leading_hypothesis_words_inserted (fuel : nat)
    (reference hypothesis : string) (extra : list string) :
  split hypothesis = extra ++ split reference →
  length (split hypothesis) ≤ fuel →
  calculations fuel (Str reference) (Str hypothesis)
  = Ret (Breakdown
           (true_divide (Z.of_nat (length extra))
              (Z.of_nat (length (split reference))))
           (Z.of_nat (length extra)) (length (split reference))
           (length extra) 0 0 extra [] []).
Proof.
  intros Hhyp Hfuel. cbn. rewrite Hhyp in *. set (rw := split reference) in *.
  rewrite length_app in Hfuel.
  destruct (align_run rw (extra ++ rw)) as (D & HD & _ & ->).
  unfold backtrace. rewrite length_app.
  rewrite (run_offdiagonal_hypothesis rw extra D) by (done || lia).
  cbn -[reverse]. rewrite reverse_involutive.
  rewrite (offdiagonal_hypothesis rw extra D) by done.
  done.
Qed.

Lemma leading_hypothesis_words_inserted_witness :
  calculations 3 (Str "c") (Str "a b c")
  = Ret (Breakdown (Finite 2) 2 1 2 0 0 ["a"; "b"] [] []).
Proof.
  apply (leading_hypothesis_words_inserted 3 "c" "a b c" ["a"; "b"]);
    vm_compute; [reflexivity | lia].
Defined.

(** When the reference is [e] extra words followed by the words of the
    hypothesis, [calculations] returns: the distance is [e], the extra
    words are the deletions, and nothing is inserted or substituted. *)
Theorem leading_reference_words_deleted (fuel : nat)
    (reference hypothesis : string) (extra : list string) :
  split reference = extra ++ split hypothesis →
  length (split reference) ≤ fuel →
  calculations fuel (Str reference) (Str hypothesis)
  = Ret (Breakdown
           (true_divide (Z.of_nat (length extra))
              (Z.of_nat (length (split reference))))
           (Z.of_nat (length extra)) (length (split reference))
           0 (length extra) 0 [] extra []).
Proof.
  intros Href Hfuel. cbn. rewrite Href in *. set (hw := split hypothesis) in *.
  rewrite length_app in Hfuel.
  destruct (align_run (extra ++ hw) hw) as (D & HD & _ & ->).
  unfold backtrace. rewrite !length_app.
  rewrite (run_offdiagonal_reference hw extra D) by (done || lia).
  cbn -[reverse]. rewrite reverse_involutive.
  rewrite (offdiagonal_reference hw extra D) by done.
  done.
Qed.

Lemma leading_reference_words_deleted_witness :
  calculations 3 (Str "a b c") (Str "c")
  = Ret (Breakdown (Finite (2 # 3)) 2 3 0 2 0 [] ["a"; "b"] []).
Proof.
  apply (leading_reference_words_deleted 3 "a b c" "c" ["a"; "b"]);
    vm_compute; [reflexivity | lia].
Defined.

Lemma same_word_disjoint (rw hw : list string) (i j : nat) :
  (∀ w, w ∈ rw → w ∉ hw) → same_word rw hw i j = false.
Proof.
  intros Hdis. unfold same_word.
  destruct (rw !! (i - 1)) as [a|] eqn:Ha; [|done].
  destruct (hw !! (j - 1)) as [b|] eqn:Hb; [|done].
  apply String.eqb_neq. intros ->.
  apply (Hdis b); by eapply list_elem_of_lookup_2.
Qed.

(** Without a common word no cell is filled by a match, and the matrix
    has a closed form. *)
Lemma cells_disjoint_sum (rw hw : list string) (D : matrix) :
  edit_matrix rw hw D → (∀ w, w ∈ rw → w ∉ hw) →
  ∀ s i j, i + j = s → i ≤ length rw → j ≤ length hw →
    cell D i j
    = (4 * Z.min (Z.of_nat i) (Z.of_nat j)
       + Z.abs (Z.of_nat i - Z.of_nat j))%Z.
Proof.
  intros (Hsh & [Hcol Hrow] & Hrec) Hdis s.
  induction s as [s IH] using lt_wf_ind. intros i j Hs Hi Hj.
  destruct (decide (i = 0)) as [->|Hi0]; [rewrite Hrow by done; lia|].
  destruct (decide (j = 0)) as [->|Hj0]; [rewrite Hcol by done; lia|].
  rewrite Hrec by lia. unfold recurrence.
  rewrite (same_word_disjoint rw hw i j Hdis).
  rewrite (IH (i - 1 + (j - 1)) ltac:(lia) (i - 1) (j - 1) eq_refl
             ltac:(lia) ltac:(lia)).
  rewrite (IH (i + (j - 1)) ltac:(lia) i (j - 1) eq_refl
             ltac:(lia) ltac:(lia)).
  rewrite (IH (i - 1 + j) ltac:(lia) (i - 1) j eq_refl
             ltac:(lia) ltac:(lia)).
  lia.
Qed.

(** Without a common word an iteration that starts with [i >= 1] and
    [j >= 1] ends with [i >= 1] and [j >= 1]. *)
Lemma backtrace_step_disjoint (rw hw : list string) (D : matrix) (t : trace) :
  edit_matrix rw hw D → (∀ w, w ∈ rw → w ∉ hw) →
  1 ≤ bt_i t ≤ length rw → 1 ≤ bt_j t ≤ length hw →
  ∃ t', backtrace_step rw hw D t = Ret t'
        ∧ 1 ≤ bt_i t' ≤ length rw ∧ 1 ≤ bt_j t' ≤ length hw.
Proof.
  intros HD Hdis Hi Hj. pose proof HD as (Hsh & _).
  pose proof (λ i j, getitem_cell _ _ D i j Hsh) as Hget.
  destruct t as [i j ni nd ns iw dw sw]. cbn in Hi, Hj.
  destruct i as [|i]; [lia|]. destruct j as [|j]; [lia|].
  destruct (lookup_lt_is_Some_2 rw i) as [a Ha]; [lia|].
  destruct (lookup_lt_is_Some_2 hw j) as [b Hb]; [lia|].
  assert (String.eqb a b = false) as Hab.
  { apply String.eqb_neq. intros ->.
    apply (Hdis b); by eapply list_elem_of_lookup_2. }
  pose proof (cells_disjoint_sum rw hw D HD Hdis _ (S i) (S j) eq_refl
                ltac:(lia) ltac:(lia)) as H11.
  pose proof (cells_disjoint_sum rw hw D HD Hdis _ i j eq_refl
                ltac:(lia) ltac:(lia)) as H00.
  pose proof (cells_disjoint_sum rw hw D HD Hdis _ (S i) j eq_refl
                ltac:(lia) ltac:(lia)) as H10.
  pose proof (cells_disjoint_sum rw hw D HD Hdis _ i (S j) eq_refl
                ltac:(lia) ltac:(lia)) as H01.
  unfold backtrace_step. cbn. rewrite !Nat.sub_0_r.
  rewrite (index_lookup _ _ _ Ha), (index_lookup _ _ _ Hb). cbn.
  rewrite Hab.
  repeat
    (first
       [ rewrite Hget by lia
       | match goal with
         | |- context [if ?x then _ else _] => destruct x eqn:?
         end ];
     cbn);
    repeat
      match goal with
      | H : (_ =? _)%Z = true |- _ => apply Z.eqb_eq in H
      | H : (_ =? _)%Z = false |- _ => apply Z.eqb_neq in H
      end;
    (eexists; split; [reflexivity|]; cbn; lia).
Qed.

(** When the reference and the hypothesis both have words and share none,
    [calculations] never returns: the backtrace moves along the last row
    or column until [i = j] and stays there. *)
Theorem no_common_word_never_returns (fuel : nat)
    (reference hypothesis : string) :
  split reference ≠ [] → split hypothesis ≠ [] →
  (∀ w, w ∈ split reference → w ∉ split hypothesis) →
  calculations fuel (Str reference) (Str hypothesis) = OutOfFuel.
Proof.
  cbn. set (rw := split reference). set (hw := split hypothesis).
  intros Hrw Hhw Hdis.
  assert (1 ≤ length rw) by (destruct rw; [done | cbn; lia]).
  assert (1 ≤ length hw) by (destruct hw; [done | cbn; lia]).
  destruct (align_run rw hw) as (D & HD & _ & ->).
  unfold backtrace.
  rewrite (while_trapped
             (λ t, 1 ≤ bt_i t ≤ length rw ∧ 1 ≤ bt_j t ≤ length hw));
    [done | | cbn; lia].
  intros t [Hi Hj]. split.
  - unfold backtrace_cond. apply orb_true_intro. left. apply Nat.ltb_lt. lia.
  - destruct (backtrace_step_disjoint rw hw D t HD Hdis Hi Hj)
      as (t' & Ht' & ? & ?). by exists t'.
Qed.

Lemma no_common_word_never_returns_witness :
  calculations 1000 (Str "the cat sat") (Str "a dog") = OutOfFuel.
Proof.
  apply (no_common_word_never_returns 1000 "the cat sat" "a dog").
  - vm_compute. discriminate.
  - vm_compute. discriminate.
  - apply Forall_forall.
    change (split "the cat sat") with ["the"; "cat"; "sat"].
    change (split "a dog") with ["a"; "dog"].
    repeat constructor; intros Hin;
      repeat (apply elem_of_cons in Hin as [Hin|Hin]; [discriminate Hin|]);
      by apply elem_of_nil in Hin.
Defined.

End Families.

(** ** What [metrics] and [wers] do on every argument *)

Section Boundary.

Import Py Np Metrics Wers Spec.

Lemma align_raises_nothing (fuel : nat) (rw hw : list string) :
  (∃ r, align fuel rw hw = Ret r) ∨ align fuel rw hw = OutOfFuel.
Proof.
  destruct (align_run rw hw) as (D & (Hsh & _) & _ & ->). unfold backtrace.
  destruct (while_no_raise
              (λ t, bt_i t ≤ length rw ∧ bt_j t ≤ length hw)
              backtrace_cond (backtrace_step rw hw D)) with
    (fuel := fuel) (s := Trace (length rw) (length hw) 0 0 0 [] [] [])
    as [[t ->] | ->]; cbn; eauto.
  intros t [Hi Hj].
  destruct (backtrace_step_returns rw hw D t Hsh Hi Hj) as [t' Ht'].
  exists t'. split; [done|].
  destruct (backtrace_step_bounds rw hw D t t' Ht'). lia.
Qed.

(** The only exception of [calculations] is the [AttributeError] of
    [split] on a number. *)
Lemma calculations_raise (fuel : nat) (x y : pyobj) (e : exn) :
  calculations fuel x y = Raise e →
  e = AttributeError ∧ ∃ z, x = Num z ∨ y = Num z.
Proof.
  destruct x as [s1|z1]; [|intros [= <-]; eauto].
  destruct y as [s2|z2]; [|intros [= <-]; eauto]. cbn.
  destruct (align_raises_nothing fuel (split s1) (split s2)) as [[r ->]| ->];
    done.
Qed.

Lemma calculations_raises_or_not (fuel : nat) (s1 s2 : string) :
  (∃ r, calculations fuel (Str s1) (Str s2) = Ret r)
  ∨ calculations fuel (Str s1) (Str s2) = OutOfFuel.
Proof. apply align_raises_nothing. Qed.

Lemma entries_length (a : pyarg) : length (entries a) = arg_size a.
Proof. destruct a; cbn; by rewrite ?length_fmap. Qed.

Lemma index_in_range {A : Type} (l : list A) (k : nat) :
  k < length l → ∃ x, index l k = Ret x ∧ l !! k = Some x.
Proof.
  intros Hk. destruct (lookup_lt_is_Some_2 l k Hk) as [x Hx].
  exists x. split; [by apply index_lookup | done].
Qed.

Lemma broadcast_size (a b : pyarg) (k : nat) :
  broadcast (arg_shape a) (arg_shape b) = Some (Some k) →
  arg_size a ≠ 0 → arg_size b ≠ 0 →
  1 ≤ k
  ∧ (∀ idx, idx < k → ∃ x, entry a idx = Ret x)
  ∧ (∀ idx, idx < k → ∃ y, entry b idx = Ret y).
Proof.
  unfold entry, arg_size. intros Hb Ha0 Hb0.
  pose proof (entries_length a) as Hla. pose proof (entries_length b) as Hlb.
  unfold arg_size in Hla, Hlb.
  assert (∀ (c : pyarg) idx, idx < length (entries c) →
            ∃ x, index (entries c) idx = Ret x) as Hidx.
  { intros c idx Hlt. destruct (index_in_range _ _ Hlt) as (x & ? & _). eauto. }
  destruct (arg_shape a) as [[|[|ka]]|], (arg_shape b) as [[|[|kb]]|];
    cbn in Hb; repeat case_decide; simplify_eq; try lia;
    (split; [lia|]); split; intros idx Hlt; apply Hidx; lia.
Qed.

Lemma map_calls_raise {A B : Type} (f : A → outcome B) (l : list A) (e : exn) :
  map_calls f l = Raise e → ∃ x, x ∈ l ∧ f x = Raise e.
Proof.
  induction l as [|x l IH]; cbn; [done|].
  destruct (f x) as [y| |] eqn:Hx; cbn.
  - destruct (map_calls f l) as [ys| |]; cbn; [done | | done].
    intros [= <-]. destruct IH as (x' & ? & ?); [done|].
    exists x'. split; [by apply elem_of_cons; right | done].
  - intros [= <-]. exists x. split; [by apply elem_of_cons; left | done].
  - done.
Qed.

(** The first entry of an argument that is not empty, as numpy reads it
    back: a number for numbers, a text for texts. *)
Lemma first_entry_spec (a : pyarg) :
  arg_size a ≠ 0 →
  ∃ x, first_entry a = Ret x
       ∧ (numeric a → ∃ z, x = Num z)
       ∧ (¬ numeric a → ∃ s, x = Str s).
Proof.
  destruct a as [s|z|[|s l]|[|z l]]; cbn -[rstrip_nul]; intros Ha;
    try done; eexists; (split; [reflexivity|]);
    (split; intros Hn; [try done | try (by destruct Hn)]); eauto.
Qed.

(** The scalar result of [broadcast] comes from two scalars. *)
Lemma broadcast_scalar (a b : pyarg) :
  broadcast (arg_shape a) (arg_shape b) = Some None ↔
  arg_shape a = None ∧ arg_shape b = None.
Proof.
  split.
  - destruct (arg_shape a), (arg_shape b); cbn; repeat case_decide; done.
  - by intros [-> ->].
Qed.

(** The outcomes of [metrics]: [ValueError] or [AttributeError] when it
    raises; when it returns, the result on two scalars is the array of
    the one call before numpy 2.3.0 and a 0-d array from 2.3.0 on, and
    the result on anything else is an array of arrays that is never
    empty. *)
Lemma metrics_outcomes (v : release) (fuel : nat) (a b : pyarg) :
  match metrics v fuel a b with
  | Raise e => e = ValueError ∨ e = AttributeError
  | Ret (Many rs) =>
      rs ≠ [] ∧ ¬ (arg_shape a = None ∧ arg_shape b = None)
  | Ret (Single _) =>
      v = Before_2_3 ∧ arg_shape a = None ∧ arg_shape b = None
  | Ret (Boxed _) =>
      v = From_2_3 ∧ arg_shape a = None ∧ arg_shape b = None
  | OutOfFuel => True
  end.
Proof.
  unfold metrics, vectorize. case_decide as Hsize; [by left|].
  destruct (first_entry_spec a) as (x0 & -> & _); [lia|].
  destruct (first_entry_spec b) as (y0 & -> & _); [lia|].
  cbn [mbind outcome_bind].
  destruct (calculations fuel x0 y0) as [r0|e|] eqn:H0;
    cbn [mbind outcome_bind]; [| |done].
  2:{ right. by apply calculations_raise in H0 as [-> _]. }
  destruct (broadcast (arg_shape a) (arg_shape b)) as [[k|]|] eqn:Hbr;
    [| | by left].
  - destruct (broadcast_size a b k Hbr) as (Hk & Hea & Heb); [lia | lia |].
    destruct (map_calls _ (seq 0 k)) as [rs|e|] eqn:Hcalls;
      cbn [mbind outcome_bind]; [| |done].
    + split.
      * apply map_calls_ret, Forall2_length in Hcalls.
        rewrite length_seq in Hcalls. intros ->. cbn in Hcalls. lia.
      * intros Hshape. apply broadcast_scalar in Hshape. congruence.
    + apply map_calls_raise in Hcalls as (idx & Hin & Hcall).
      apply elem_of_seq in Hin.
      destruct (Hea idx) as [x Hx]; [lia|].
      destruct (Heb idx) as [y Hy]; [lia|].
      rewrite Hx, Hy in Hcall. cbn in Hcall.
      right. by apply calculations_raise in Hcall as [-> _].
  - apply broadcast_scalar in Hbr as [Ha Hb]. unfold entry. rewrite Ha, Hb.
    destruct (index_in_range (entries a) 0) as (x & -> & _);
      [rewrite entries_length; lia|].
    destruct (index_in_range (entries b) 0) as (y & -> & _);
      [rewrite entries_length; lia|].
    cbn [mbind outcome_bind].
    destruct (calculations fuel x y) as [r|e|] eqn:Hcall;
      cbn [mbind outcome_bind]; [| |done].
    + by destruct v.
    + right. by apply calculations_raise in Hcall as [-> _].
Qed.

(** What [wers] does, whatever texts, numbers or lists it is given.
    Either it prints one of its two messages and returns [None]; or it
    prints nothing and: returns a float (two scalars, before numpy
    2.3.0), returns a list of floats that is not empty (a collection on
    one side at least), raises [IndexError] (two scalars, from numpy
    2.3.0 on), or [metrics] is still running. *)
Theorem wers_outcomes (v : release) (fuel : nat) (reference hypothesis : pyarg) :
  let out := wers v fuel reference hypothesis in
  let scalars := arg_shape reference = None ∧ arg_shape hypothesis = None in
  (result out = Ret PyNone
   ∧ (stdout out = [value_error_message]
      ∨ stdout out = [attribute_error_message]))
  ∨ (stdout out = []
     ∧ ((∃ x, result out = Ret (PyFloat x) ∧ v = Before_2_3 ∧ scalars)
        ∨ (∃ xs, result out = Ret (PyList xs) ∧ xs ≠ [] ∧ ¬ scalars)
        ∨ (result out = Raise IndexError ∧ v = From_2_3 ∧ scalars)
        ∨ result out = OutOfFuel)).
Proof.
  pose proof (metrics_outcomes v fuel reference hypothesis) as Hm.
  unfold wers. cbn zeta.
  destruct (metrics v fuel reference hypothesis) as [[r|r|rs]|e|].
  - right. split; [done|]. left. eexists. split; [done|]. apply Hm.
  - right. split; [done|]. right; right; left. split; [done|]. apply Hm.
  - right. split; [done|]. right; left. destruct Hm as [Hne Hshape].
    destruct rs as [|r rs]; [done|]. eexists. split; [done|]. split; done.
  - left. destruct Hm as [-> | ->]; cbn; eauto.
  - right. split; [done|]. by right; right; right.
Qed.

(** An empty collection on either side is refused: [wers] prints the
    message about the number of elements, also for two empty collections,
    and returns [None]. *)
Theorem wers_refuses_empty_collection (v : release) (fuel : nat)
    (reference hypothesis : pyarg) :
  arg_size reference = 0 ∨ arg_size hypothesis = 0 →
  wers v fuel reference hypothesis = Run [value_error_message] (Ret PyNone).
Proof.
  intros Hsize. unfold wers, metrics, vectorize. by rewrite decide_True.
Qed.

Lemma wers_refuses_empty_collection_witness :
  wers From_2_3 0 (Texts []) (Texts [])
  = Run [value_error_message] (Ret PyNone).
Proof.
  apply (wers_refuses_empty_collection From_2_3 0 (Texts []) (Texts [])).
  left. reflexivity.
Defined.

(** When neither argument is empty and one of them is a number or a list
    of numbers, [wers] prints the message about the string format and
    returns [None], whatever the lengths. *)
Theorem wers_refuses_numbers (v : release) (fuel : nat)
    (reference hypothesis : pyarg) :
  arg_size reference ≠ 0 → arg_size hypothesis ≠ 0 →
  numeric reference ∨ numeric hypothesis →
  wers v fuel reference hypothesis
  = Run [attribute_error_message] (Ret PyNone).
Proof.
  intros Ha Hb Hnum. unfold wers, metrics, vectorize.
  rewrite decide_False by lia.
  destruct (first_entry_spec reference Ha) as (x0 & -> & Hx0 & _).
  destruct (first_entry_spec hypothesis Hb) as (y0 & -> & Hy0 & _).
  cbn [mbind outcome_bind].
  assert (calculations fuel x0 y0 = Raise AttributeError) as ->; [|done].
  destruct Hnum as [Hnum|Hnum].
  - by destruct (Hx0 Hnum) as [z ->].
  - destruct (Hy0 Hnum) as [z ->]. by destruct x0.
Qed.

Lemma wers_refuses_numbers_witness :
  wers From_2_3 0 (Texts ["a"; "b"]) (Numbers [1; 2; 3]%Z)
  = Run [attribute_error_message] (Ret PyNone).
Proof.
  apply (wers_refuses_numbers From_2_3 0 (Texts ["a"; "b"])
           (Numbers [1; 2; 3]%Z));
    cbn; [lia | lia | by right].
Defined.

(** The arrays of a result of [metrics] on arguments of which one at
    least is a collection: one call per position of the broadcast. *)
Lemma metrics_many (v : release) (fuel : nat) (a b : pyarg) (k : nat)
    (res : batch) :
  broadcast (arg_shape a) (arg_shape b) = Some (Some k) →
  metrics v fuel a b = Ret res →
  ∃ rs, res = Many rs
        ∧ Forall2 (λ idx r, (x ← entry a idx; y ← entry b idx;
                             calculations fuel x y) = Ret r)
            (seq 0 k) rs.
Proof.
  intros Hbr. unfold metrics, vectorize. case_decide; [done|].
  destruct (first_entry a) as [x0| |]; cbn [mbind outcome_bind]; [|done..].
  destruct (first_entry b) as [y0| |]; cbn [mbind outcome_bind]; [|done..].
  destruct (calculations fuel x0 y0); cbn [mbind outcome_bind]; [|done..].
  rewrite Hbr.
  destruct (map_calls _ _) as [rs| |] eqn:Hcalls;
    cbn [mbind outcome_bind]; [|done..].
  intros [= <-]. exists rs. split; [done|]. by apply map_calls_ret.
Qed.

(** One reference text against a collection of [k] hypotheses: when
    [metrics] returns, it returns [k] arrays, the [i]-th aligning the
    reference with the [i]-th hypothesis, and [wers] returns the list of
    their rates in that order. *)
Theorem one_reference_many_hypotheses (v : release) (fuel : nat)
    (reference : string) (hyps : list string) (res : batch) :
  metrics v fuel (Text reference) (Texts hyps) = Ret res →
  ∃ rs, res = Many rs
        ∧ length rs = length hyps
        ∧ (∀ i h, hyps !! i = Some h →
             ∃ r, rs !! i = Some r
                  ∧ calculations fuel (Str reference) (Str h) = Ret r)
        ∧ wers v fuel (Text reference) (Texts hyps)
          = Run [] (Ret (PyList (wer <$> rs))).
Proof.
  intros Hm.
  destruct (metrics_many v fuel (Text reference) (Texts hyps) (length hyps) res)
    as (rs & -> & Hall); [done | done |].
  pose proof (Forall2_length _ _ _ Hall) as Hlen. rewrite length_seq in Hlen.
  exists rs. split_and!; [done | done | |].
  - intros i h Hh.
    assert (i < length hyps) as Hi by (by eapply lookup_lt_Some).
    destruct (lookup_lt_is_Some_2 rs i) as [r Hr]; [lia|].
    exists r. split; [done|].
    assert (seq 0 (length hyps) !! i = Some i) as Hseq
      by (by rewrite lookup_seq_lt).
    pose proof (Forall2_lookup_lr _ _ _ _ _ _ Hall Hseq Hr) as Hcall.
    cbn beta in Hcall. by rewrite (entry_texts _ _ _ Hh) in Hcall.
  - pose proof (metrics_outcomes v fuel (Text reference) (Texts hyps)) as Hne.
    unfold wers. rewrite Hm in *. destruct Hne as [Hne _]. destruct rs; done.
Qed.

Lemma one_reference_many_hypotheses_witness :
  wers From_2_3 2 (Text "a b") (Texts ["a b"; ""; "b"])
  = Run [] (Ret (PyList [Finite 0; Finite 1; Finite (1 # 2)])).
Proof.
  destruct (one_reference_many_hypotheses From_2_3 2 "a b" ["a b"; ""; "b"]
              (Many [Breakdown (Finite 0) 0 2 0 0 0 [] [] [];
                     Breakdown (Finite 1) 2 2 0 2 0 [] ["a"; "b"] [];
                     Breakdown (Finite (1 # 2)) 1 2 0 1 0 [] ["a"] []]))
    as (rs & [= <-] & _ & _ & ->); [vm_compute; reflexivity|].
  reflexivity.
Defined.

End Boundary.

(** ** Common trailing words *)

Section Suffix.

Import Py Np Metrics Spec.

(** The cells of the matrix depend only on the words before them. *)
Lemma edit_matrix_prefix (rw hw sr sh : list string) (D D' : matrix) :
  edit_matrix rw hw D → edit_matrix (rw ++ sr) (hw ++ sh) D' →
  ∀ s i j, i + j = s → i ≤ length rw → j ≤ length hw →
    cell D' i j = cell D i j.
Proof.
  intros (_ & [Hcol Hrow] & Hrec) (_ & [Hcol' Hrow'] & Hrec').
  rewrite !length_app in Hcol', Hrow', Hrec'. intros s.
  induction s as [s IH] using lt_wf_ind. intros i j Hs Hi Hj.
  destruct (decide (i = 0)) as [->|Hi0]; [by rewrite Hrow, Hrow' by lia|].
  destruct (decide (j = 0)) as [->|Hj0]; [by rewrite Hcol, Hcol' by lia|].
  rewrite Hrec by lia. rewrite Hrec' by (rewrite ?length_app; lia).
  unfold recurrence, same_word.
  rewrite !lookup_app_l by lia.
  rewrite (IH (i - 1 + (j - 1)) ltac:(lia) (i - 1) (j - 1) eq_refl
             ltac:(lia) ltac:(lia)).
  rewrite (IH (i + (j - 1)) ltac:(lia) i (j - 1) eq_refl
             ltac:(lia) ltac:(lia)).
  rewrite (IH (i - 1 + j) ltac:(lia) (i - 1) j eq_refl
             ltac:(lia) ltac:(lia)).
  done.
Qed.

(** Below a common suffix the diagonal carries the cell [(m, n)] on. *)
Lemma suffix_diagonal (rw hw sfx : list string) (D' : matrix) (k : nat) :
  edit_matrix (rw ++ sfx) (hw ++ sfx) D' → k ≤ length sfx →
  cell D' (length rw + k) (length hw + k) = cell D' (length rw) (length hw).
Proof.
  intros (_ & _ & Hrec).
  induction k as [|k IH]; intros Hk; [by rewrite !Nat.add_0_r|].
  destruct (lookup_lt_is_Some_2 sfx k) as [w Hw]; [lia|].
  rewrite Hrec by (rewrite ?length_app; lia). unfold recurrence, same_word.
  replace (length rw + S k - 1) with (length rw + k) by lia.
  replace (length hw + S k - 1) with (length hw + k) by lia.
  rewrite !lookup_app_r by lia.
  replace (length rw + k - length rw) with k by lia.
  replace (length hw + k - length hw) with k by lia.
  rewrite Hw, String.eqb_refl. apply IH. lia.
Qed.

Lemma run_suffix (rw hw sfx : list string) (D' : matrix) (k fuel : nat)
    (ni nd ns : nat) (iw dw : list string) (sw : list (string * string)) :
  k ≤ length sfx →
  while (k + fuel) backtrace_cond (backtrace_step (rw ++ sfx) (hw ++ sfx) D')
    (Trace (length rw + k) (length hw + k) ni nd ns iw dw sw)
  = while fuel backtrace_cond (backtrace_step (rw ++ sfx) (hw ++ sfx) D')
      (Trace (length rw) (length hw) ni nd ns iw dw sw).
Proof.
  induction k as [|k IH]; intros Hk; [by rewrite !Nat.add_0_r|].
  destruct (lookup_lt_is_Some_2 sfx k) as [w Hw]; [lia|].
  assert ((rw ++ sfx) !! (length rw + k) = Some w) as Ha.
  { rewrite lookup_app_r by lia.
    by replace (length rw + k - length rw) with k by lia. }
  assert ((hw ++ sfx) !! (length hw + k) = Some w) as Hb.
  { rewrite lookup_app_r by lia.
    by replace (length hw + k - length hw) with k by lia. }
  rewrite !Nat.add_succ_r. cbn [Nat.add].
  rewrite (while_unfold _ _ _ _ _ eq_refl
             (step_match (rw ++ sfx) (hw ++ sfx) D' _ _ w _ _ _ _ _ _ Ha Hb)).
  apply IH. lia.
Qed.

(** Above the suffix an iteration of the backtrace is the iteration on
    the texts without it. *)
Lemma backtrace_step_prefix (rw hw sr sh : list string) (D D' : matrix)
    (t : trace) :
  edit_matrix rw hw D → edit_matrix (rw ++ sr) (hw ++ sh) D' →
  bt_i t ≤ length rw → bt_j t ≤ length hw →
  backtrace_step (rw ++ sr) (hw ++ sh) D' t = backtrace_step rw hw D t.
Proof.
  intros HD HD' Hi Hj.
  pose proof HD as (Hsh & _). pose proof HD' as (Hsh' & _).
  rewrite !length_app in Hsh'.
  pose proof (λ i j, getitem_cell _ _ D i j Hsh) as Hget.
  pose proof (λ i j, getitem_cell _ _ D' i j Hsh') as Hget'.
  pose proof (λ i j, edit_matrix_prefix rw hw sr sh D D' HD HD' _ i j eq_refl)
    as Hcell.
  assert (∀ k, k < length rw → index (rw ++ sr) k = index rw k) as Hrw.
  { intros k Hk. unfold index. by rewrite lookup_app_l. }
  assert (∀ k, k < length hw → index (hw ++ sh) k = index hw k) as Hhw.
  { intros k Hk. unfold index. by rewrite lookup_app_l. }
  destruct t as [i j ni nd ns iw dw sw]. cbn in Hi, Hj.
  unfold backtrace_step.
  destruct i as [|i], j as [|j]; cbn; rewrite ?Nat.sub_0_r;
    rewrite ?Hrw, ?Hhw by lia.
  - done.
  - repeat (first [rewrite Hget by lia | rewrite Hget' by lia]; cbn).
    by rewrite !Hcell by lia.
  - repeat (first [rewrite Hget by lia | rewrite Hget' by lia]; cbn).
    by rewrite !Hcell by lia.
  - destruct (index rw i) as [a| |]; cbn; [|done..].
    destruct (index hw j) as [b| |]; cbn; [|done..].
    destruct (String.eqb a b); [done|].
    repeat (first [rewrite Hget by lia | rewrite Hget' by lia]; cbn).
    by rewrite !Hcell by lia.
Qed.

Lemma run_prefix (rw hw sr sh : list string) (D D' : matrix) (fuel : nat)
    (t : trace) :
  edit_matrix rw hw D → edit_matrix (rw ++ sr) (hw ++ sh) D' →
  bt_i t ≤ length rw → bt_j t ≤ length hw →
  while fuel backtrace_cond (backtrace_step (rw ++ sr) (hw ++ sh) D') t
  = while fuel backtrace_cond (backtrace_step rw hw D) t.
Proof.
  intros HD HD'. revert t. induction fuel as [|fuel IH]; intros t Hi Hj; cbn.
  - done.
  - destruct (backtrace_cond t); [|done].
    rewrite (backtrace_step_prefix rw hw sr sh D D' t HD HD' Hi Hj).
    destruct (backtrace_step rw hw D t) as [t'| |] eqn:Hstep; cbn; [|done..].
    destruct (backtrace_step_bounds rw hw D t t' Hstep).
    apply IH; lia.
Qed.

(** Words added at the end of both texts change neither the distance nor
    the edits: when [calculations] returns on two texts, it returns on
    the texts followed by the same words, with the same distance, counts
    and lists, and a reference longer by these words. *)
Theorem common_trailing_words (fuel : nat)
    (reference hypothesis reference' hypothesis' : string)
    (suffix : list string) (r : breakdown) :
  split reference' = split reference ++ suffix →
  split hypothesis' = split hypothesis ++ suffix →
  calculations fuel (Str reference) (Str hypothesis) = Ret r →
  calculations (length suffix + fuel) (Str reference') (Str hypothesis')
  = Ret (Breakdown
           (true_divide (ld r) (Z.of_nat (m r + length suffix)))
           (ld r) (m r + length suffix)
           (insertions r) (deletions r) (substitutions r)
           (inserted_words r) (deleted_words r) (substituted_words r)).
Proof.
  intros Href Hhyp. cbn. rewrite Href, Hhyp.
  set (rw := split reference). set (hw := split hypothesis).
  destruct (align_run rw hw) as (D & HD & _ & ->).
  destruct (align_run (rw ++ suffix) (hw ++ suffix)) as (D' & HD' & _ & ->).
  unfold backtrace. rewrite !length_app.
  rewrite (run_suffix rw hw suffix D') by done.
  rewrite (run_prefix rw hw suffix suffix D D') by done.
  destruct (while fuel _ _ _) as [t| |]; cbn; [|done..].
  intros [= <-]. cbn.
  rewrite (suffix_diagonal rw hw suffix D') by done.
  by rewrite (edit_matrix_prefix rw hw suffix suffix D D' HD HD' _ _ _ eq_refl).
Qed.

Lemma common_trailing_words_witness :
  calculations 5 (Str "c x y") (Str "a b c x y")
  = Ret (Breakdown (Finite (2 # 3)) 2 3 2 0 0 ["a"; "b"] [] []).
Proof.
  apply (common_trailing_words 3 "c" "a b c" "c x y" "a b c x y" ["x"; "y"]
           (Breakdown (Finite 2) 2 1 2 0 0 ["a"; "b"] [] []));
    vm_compute; reflexivity.
Defined.

End Suffix.

(** ** Batches of texts *)

Section Batches.

Import Py Np Metrics Wers Spec.

Lemma map_calls_intro {A B : Type} (f : A → outcome B) (l : list A)
    (ys : list B) :
  Forall2 (λ x y, f x = Ret y) l ys → map_calls f l = Ret ys.
Proof.
  induction 1 as [|x y l ys Hx _ IH]; cbn; [done|]. by rewrite Hx, IH.
Qed.

Lemma map_calls_out_of_fuel {A B : Type} (f : A → outcome B) (l : list A)
    (x : A) :
  (∀ x' e, x' ∈ l → f x' ≠ Raise e) → x ∈ l → f x = OutOfFuel →
  map_calls f l = OutOfFuel.
Proof.
  intros Hsafe Hin Hx. induction l as [|x' l IH]; cbn.
  - by apply elem_of_nil in Hin.
  - destruct (f x') as [y|e|] eqn:Hx'; cbn; [| |done].
    + rewrite IH; [done | |].
      * intros x'' e Hin'. apply Hsafe. by apply elem_of_cons; right.
      * apply elem_of_cons in Hin as [->|Hin]; [congruence | done].
    + exfalso. apply (Hsafe x' e); [by apply elem_of_cons; left | done].
Qed.

(** When the first call of numpy returns (the call on the two first
    texts as numpy reads them back, without the NUL characters at their
    ends) and [calculations] returns on every pair of two collections of
    [k >= 1] texts each, [metrics] returns the [k] results in order and
    [wers] prints nothing and returns the list of their rates. *)
Theorem wers_on_returning_pairs (v : release) (fuel : nat)
    (refs hyps : list string) (rs : list breakdown) :
  refs ≠ [] → length refs = length hyps → length rs = length refs →
  (∀ x y, refs !! 0 = Some x → hyps !! 0 = Some y →
     ∃ r, calculations fuel (Str (rstrip_nul x)) (Str (rstrip_nul y)) = Ret r) →
  (∀ i x y r, refs !! i = Some x → hyps !! i = Some y → rs !! i = Some r →
     calculations fuel (Str x) (Str y) = Ret r) →
  metrics v fuel (Texts refs) (Texts hyps) = Ret (Many rs)
  ∧ wers v fuel (Texts refs) (Texts hyps)
    = Run [] (Ret (PyList (wer <$> rs))).
Proof.
  intros Hne Hlen Hrs Hfirst Hall.
  assert (metrics v fuel (Texts refs) (Texts hyps) = Ret (Many rs)) as Hm.
  { unfold metrics, vectorize. cbn [arg_size arg_shape].
    rewrite decide_False by (destruct refs; cbn in *; [done | lia]).
    destruct refs as [|x0 refs]; [done|].
    destruct hyps as [|y0 hyps]; [done|].
    destruct rs as [|r0 rs]; [done|].
    rewrite (first_entry_texts (x0 :: refs) x0),
      (first_entry_texts (y0 :: hyps) y0) by done.
    cbn [mbind outcome_bind].
    destruct (Hfirst x0 y0) as [rp ->]; [done | done |].
    cbn [mbind outcome_bind].
    unfold broadcast. rewrite decide_True by done.
    rewrite (map_calls_intro _ _ (r0 :: rs)); [done|].
    apply Forall2_same_length_lookup_2; [by rewrite length_seq|].
    intros i idx r Hidx Hr. apply lookup_seq in Hidx as [-> Hi].
    destruct (lookup_lt_is_Some_2 (x0 :: refs) i) as [x Hx]; [done|].
    destruct (lookup_lt_is_Some_2 (y0 :: hyps) i) as [y Hy]; [lia|].
    cbn [Nat.add].
    rewrite (entry_texts _ _ _ Hx), (entry_texts _ _ _ Hy).
    cbn [mbind outcome_bind]. by eapply Hall. }
  split; [done|]. unfold wers. rewrite Hm.
  destruct rs; [by destruct refs|done].
Qed.

Lemma wers_on_returning_pairs_witness :
  metrics From_2_3 3 (Texts ["a b"; "c"]) (Texts ["b"; "x y c"])
  = Ret (Many [Breakdown (Finite (1 # 2)) 1 2 0 1 0 [] ["a"] [];
               Breakdown (Finite 2) 2 1 2 0 0 ["x"; "y"] [] []])
  ∧ wers From_2_3 3 (Texts ["a b"; "c"]) (Texts ["b"; "x y c"])
    = Run [] (Ret (PyList [Finite (1 # 2); Finite 2])).
Proof.
  apply (wers_on_returning_pairs From_2_3 3 ["a b"; "c"] ["b"; "x y c"]);
    [done | done | done | |].
  - intros x y Hx Hy. injection Hx as <-. injection Hy as <-.
    eexists. vm_compute. reflexivity.
  - intros [|[|i]] x y r Hx Hy Hr; [| |done];
      injection Hx as <-; injection Hy as <-; injection Hr as <-;
      vm_compute; reflexivity.
Defined.

(** One pair on which [calculations] does not return keeps the whole
    batch from returning: [wers] on two collections of texts of the same
    length prints nothing and returns nothing. *)
Theorem wers_hangs_on_one_pair (v : release) (fuel : nat)
    (refs hyps : list string) (i : nat) (x y : string) :
  length refs = length hyps →
  refs !! i = Some x → hyps !! i = Some y →
  calculations fuel (Str x) (Str y) = OutOfFuel →
  wers v fuel (Texts refs) (Texts hyps) = Run [] OutOfFuel.
Proof.
  intros Hlen Hx Hy Hcall.
  assert (i < length refs) as Hi by (by eapply lookup_lt_Some).
  assert (metrics v fuel (Texts refs) (Texts hyps) = OutOfFuel) as Hm;
    [|by unfold wers; rewrite Hm].
  unfold metrics, vectorize. cbn [arg_size arg_shape].
  rewrite decide_False by lia.
  destruct (lookup_lt_is_Some_2 refs 0) as [s1 Hs1]; [lia|].
  destruct (lookup_lt_is_Some_2 hyps 0) as [s2 Hs2]; [lia|].
  rewrite (first_entry_texts refs s1 Hs1), (first_entry_texts hyps s2 Hs2).
  cbn [mbind outcome_bind].
  destruct (calculations_raises_or_not fuel (rstrip_nul s1) (rstrip_nul s2))
    as [[r0 ->]| ->]; cbn [mbind outcome_bind]; [|done].
  unfold broadcast. rewrite decide_True by done.
  rewrite (map_calls_out_of_fuel _ _ i); [done | | | ].
  - intros idx e Hin Hraise. apply elem_of_seq in Hin.
    destruct (lookup_lt_is_Some_2 refs idx) as [x' Hx']; [lia|].
    destruct (lookup_lt_is_Some_2 hyps idx) as [y' Hy']; [lia|].
    rewrite (entry_texts _ _ _ Hx'), (entry_texts _ _ _ Hy') in Hraise.
    cbn [mbind outcome_bind] in Hraise.
    by destruct (calculations_raises_or_not fuel x' y') as [[r Hr]|Hr];
      rewrite Hr in Hraise.
  - apply elem_of_seq. lia.
  - by rewrite (entry_texts _ _ _ Hx), (entry_texts _ _ _ Hy).
Qed.

Lemma wers_hangs_on_one_pair_witness :
  wers From_2_3 50 (Texts ["a b"; "the cat"; "c"])
    (Texts ["a b"; "a dog"; "c"])
  = Run [] OutOfFuel.
Proof.
  apply (wers_hangs_on_one_pair From_2_3 50 _ _ 1 "the cat" "a dog");
    [done | done | done |].
  vm_compute. reflexivity.
Defined.

(** Token lists that both have words and share none are never aligned. *)
Lemma align_disjoint (fuel : nat) (rw hw : list string) :
  rw ≠ [] → hw ≠ [] → (∀ w, w ∈ rw → w ∉ hw) →
  align fuel rw hw = OutOfFuel.
Proof.
  intros Hrw Hhw Hdis.
  assert (1 ≤ length rw) by (destruct rw; [done | cbn; lia]).
  assert (1 ≤ length hw) by (destruct hw; [done | cbn; lia]).
  destruct (align_run rw hw) as (D & HD & _ & ->).
  unfold backtrace.
  rewrite (while_trapped
             (λ t, 1 ≤ bt_i t ≤ length rw ∧ 1 ≤ bt_j t ≤ length hw));
    [done | | cbn; lia].
  intros t [Hi Hj]. split.
  - unfold backtrace_cond. apply orb_true_intro. left. apply Nat.ltb_lt. lia.
  - destruct (backtrace_step_disjoint rw hw D t HD Hdis Hi Hj)
      as (t' & Ht' & ? & ?). by exists t'.
Qed.

(** The first call of numpy decides before any pair is aligned.  With the
    reference [["a\0"]] and the hypothesis [["a\0 b"]] ([\0] the NUL
    character) [calculations] returns on the one pair, with distance 3;
    but numpy makes its first call on ["a"] and ["a\0 b"], which share
    no word, so [metrics] and [wers] never return. *)
Theorem first_call_reads_stripped_texts (v : release) (fuel : nat) :
  let a0 := String "a" (String Ascii.zero EmptyString) in
  let a0b := String "a" (String Ascii.zero " b") in
  calculations (3 + fuel) (Str a0) (Str a0b)
  = Ret (Breakdown (Finite 3) 3 1 2 1 0 [a0; "b"] [a0] [])
  ∧ metrics v fuel (Texts [a0]) (Texts [a0b]) = OutOfFuel
  ∧ wers v fuel (Texts [a0]) (Texts [a0b]) = Run [] OutOfFuel.
Proof.
  intros a0 a0b.
  assert (metrics v fuel (Texts [a0]) (Texts [a0b]) = OutOfFuel) as Hm.
  { unfold metrics, vectorize. cbn [arg_size arg_shape length].
    rewrite decide_False by lia.
    rewrite (first_entry_texts [a0] a0), (first_entry_texts [a0b] a0b) by done.
    cbn [mbind outcome_bind].
    change (calculations fuel (Str (rstrip_nul a0)) (Str (rstrip_nul a0b)))
      with (align fuel ["a"] [a0; "b"]).
    rewrite align_disjoint; [done | done | done |].
    intros w Hw Hin.
    apply elem_of_cons in Hw as [->|Hw]; [|by apply elem_of_nil in Hw].
    repeat (apply elem_of_cons in Hin as [Hin|Hin]; [discriminate Hin|]).
    by apply elem_of_nil in Hin. }
  split_and!; [| done | by unfold wers; rewrite Hm].
  apply (calculations_fuel_mono 3); [|lia]. vm_compute. reflexivity.
Qed.

End Batches.
